(** * CoffeeZone configurator: variation registry, bundle matcher,
      tabular codec and presentation projector

    A shallow embedding of the configuration core of the backend
    ([app/api/bundles.py], [app/admin_routes.py], [app/admin.py],
    [app/excel.py], [app/schemas.py], [app/models.py], [app/api/meta.py])
    and the properties its specification states about it.

    Conventions.
    - Database ids are [Z]; a nullable column is an [option].
    - A table is the list of its rows in the order the engine scans them.
    - Python [str] is [string], read as the UTF-8 encoding of the text.
    - A Python [dict] is an association list in insertion order where the
      code iterates over it, and a [gmap string _] where it only looks up.
    - Code that can raise returns a [result]. *)

From Stdlib Require Import ZArith String Ascii List Bool Lia.
From stdpp Require Import base option list gmap strings pretty fin_maps.
Import ListNotations.

#[local] Set Warnings "-register-all".

Local Open Scope string_scope.
Local Open Scope list_scope.
Local Open Scope Z_scope.

(* ===================================================================== *)
(** * Part I: the model                                                   *)
(* ===================================================================== *)

(** ** Python [str] methods

    The methods of [str] the code calls, on UTF-8 text. The separators they
    look for are ASCII, and an ASCII byte never occurs inside the encoding
    of another character, so working on bytes is exact. *)

Module Str.

Definition slash : ascii := ascii_of_N 47.

(** [s.startswith(prefix)]. *)
Fixpoint startswith (s prefix : string) : bool :=
  match prefix, s with
  | EmptyString, _ => true
  | String a prefix', String b s' => Ascii.eqb a b && startswith s' prefix'
  | String _ _, EmptyString => false
  end.

(** [s.rstrip(c)] for a single character [c]. *)
Fixpoint rstrip_char (c : ascii) (s : string) : string :=
  match s with
  | EmptyString => EmptyString
  | String x rest =>
      match rstrip_char c rest with
      | EmptyString => if Ascii.eqb x c then EmptyString else String x EmptyString
      | kept => String x kept
      end
  end.

Fixpoint repeat_char (c : ascii) (n : nat) : string :=
  match n with
  | O => EmptyString
  | S n' => String c (repeat_char c n')
  end.

Fixpoint last_char (s : string) : option ascii :=
  match s with
  | EmptyString => None
  | String x EmptyString => Some x
  | String _ rest => last_char rest
  end.

(** [s] without one leading [c], if it has one. *)
Definition drop_leading (c : ascii) (s : string) : string :=
  match s with
  | String x rest => if Ascii.eqb x c then rest else s
  | EmptyString => s
  end.

Definition of_bytes (bytes : list N) : string :=
  string_of_list_ascii (map ascii_of_N bytes).

(** The characters [str.isspace] accepts, in UTF-8: U+0009..U+000D,
    U+001C..U+0020, U+0085, U+00A0, U+1680, U+2000..U+200A, U+2028,
    U+2029, U+202F, U+205F and U+3000. *)
Definition whitespace : list string :=
  map of_bytes
    ([ [9]; [10]; [11]; [12]; [13]; [28]; [29]; [30]; [31]; [32];
       [194; 133]; [194; 160]; [225; 154; 128] ]
     ++ map (fun b => [226; 128; b])
            [128; 129; 130; 131; 132; 133; 134; 135; 136; 137; 138;
             168; 169; 175]
     ++ [ [226; 129; 159]; [227; 128; 128] ])%N.

Fixpoint drop (n : nat) (s : string) : string :=
  match n, s with
  | S n', String _ rest => drop n' rest
  | _, _ => s
  end.

(** What follows one leading character of [table], if [s] starts with one. *)
Definition after_leading (table : list string) (s : string) : option string :=
  match List.find (startswith s) table with
  | Some w => Some (drop (String.length w) s)
  | None => None
  end.

Fixpoint lstrip_table (table : list string) (fuel : nat) (s : string) : string :=
  match fuel with
  | O => s
  | S fuel' =>
      match after_leading table s with
      | Some rest => lstrip_table table fuel' rest
      | None => s
      end
  end.

Definition lstrip (s : string) : string :=
  lstrip_table whitespace (String.length s) s.

Definition rstrip (s : string) : string :=
  String.rev (lstrip_table (map String.rev whitespace) (String.length s) (String.rev s)).

(** [s.strip()]. *)
Definition strip (s : string) : string := lstrip (rstrip s).

(** A UTF-8 continuation byte (10xxxxxx). *)
Definition is_continuation (c : ascii) : bool :=
  let n := N_of_ascii c in ((128 <=? n) && (n <? 192))%N.

(** The characters of [s], as iterating over a [str] yields them: each
    lead byte with the continuation bytes behind it. *)
Fixpoint chars (s : string) : list string :=
  match s with
  | EmptyString => []
  | String c rest =>
      match rest with
      | String d _ =>
          if is_continuation d then
            match chars rest with
            | group :: groups => String c group :: groups
            | [] => [String c EmptyString]
            end
          else String c EmptyString :: chars rest
      | EmptyString => [String c EmptyString]
      end
  end.

(** ASCII [lower]: used by the reference runtime only. *)
Definition lower_ascii (c : ascii) : ascii :=
  let n := N_of_ascii c in
  if ((65 <=? n) && (n <=? 90))%N then ascii_of_N (n + 32) else c.

Fixpoint lower (s : string) : string :=
  match s with
  | EmptyString => EmptyString
  | String c rest => String (lower_ascii c) (lower rest)
  end.

(** A decimal numeral: an optional sign and ASCII digits. *)
Fixpoint digits (acc : Z) (s : string) : option Z :=
  match s with
  | EmptyString => Some acc
  | String c rest =>
      let n := N_of_ascii c in
      if ((48 <=? n) && (n <=? 57))%N
      then digits (10 * acc + Z.of_N (n - 48)) rest
      else None
  end.

Definition decimal (s : string) : option Z :=
  match s with
  | EmptyString => None
  | String c rest =>
      if (N_of_ascii c =? 45)%N then
        match rest with
        | EmptyString => None
        | _ => Z.opp <$> digits 0 rest
        end
      else if (N_of_ascii c =? 43)%N then
        match rest with
        | EmptyString => None
        | _ => digits 0 rest
        end
      else digits 0 s
  end.

(** A JSON document that is one integer: blanks, an optional minus sign,
    and digits with no leading zero. *)
Definition json_blanks : list string := map of_bytes [ [32]; [9]; [10]; [13] ]%N.

Definition json_natural (s : string) : option Z :=
  match s with
  | EmptyString => None
  | String c rest =>
      if (N_of_ascii c =? 48)%N then
        match rest with
        | EmptyString => Some 0
        | _ => None
        end
      else digits 0 s
  end.

Definition json_integer (s : string) : option Z :=
  let s := lstrip_table json_blanks (String.length s) s in
  let s := String.rev (lstrip_table json_blanks (String.length s) (String.rev s)) in
  match s with
  | String c rest =>
      if (N_of_ascii c =? 45)%N then Z.opp <$> json_natural rest else json_natural s
  | EmptyString => None
  end.

End Str.

(** ** Python values and the builtins applied to them *)

Module Py.

(** The exceptions the modelled code can raise. *)
Inductive exn := TypeError | ValueError | OverflowError | IntegrityError.

Inductive result (A : Type) :=
| Ok (a : A)
| Raise (e : exn).
Arguments Ok {A} a.
Arguments Raise {A} e.

Definition bind {A B} (r : result A) (k : A -> result B) : result B :=
  match r with
  | Ok a => k a
  | Raise e => Raise e
  end.

Definition raises {A} (r : result A) : bool :=
  match r with
  | Ok _ => false
  | Raise _ => true
  end.

(** A scalar value: what a spreadsheet cell or a column attribute holds.
    [F] are the floats and [O] the objects of library classes (datetimes,
    decimals). *)
Inductive value (F O : Type) :=
| PyNone
| PyBool (b : bool)
| PyInt (n : Z)
| PyFloat (x : F)
| PyStr (s : string)
| PyObject (o : O).
Arguments PyNone {F O}.
Arguments PyBool {F O} b.
Arguments PyInt {F O} n.
Arguments PyFloat {F O} x.
Arguments PyStr {F O} s.
Arguments PyObject {F O} o.

(** What [json.loads] returns; an object is a [dict], its members in
    insertion order. *)
Inductive json (F : Type) :=
| JNull
| JBool (b : bool)
| JInt (n : Z)
| JFloat (x : F)
| JStr (s : string)
| JArray (items : list (json F))
| JObject (members : list (string * json F)).
Arguments JNull {F}.
Arguments JBool {F} b.
Arguments JInt {F} n.
Arguments JFloat {F} x.
Arguments JStr {F} s.
Arguments JArray {F} items.
Arguments JObject {F} members.

(** The part of the Python runtime the code relies on and this
    development leaves open: floating-point numbers, objects of library
    classes, the numeral grammar of [int] and [float], Unicode case
    mapping and the JSON decoder. Every statement below holds for any
    such runtime. *)
Class Runtime := {
  float : Type;
  object : Type;
  (** [str(x)], [bool(x)] and [int(x)] of a float; [int] raises on nan
      and infinities. *)
  float_str : float -> string;
  float_bool : float -> bool;
  float_int : float -> result Z;
  (** [float(n)] of an int (raises OverflowError when too large) and
      [float(s)], [int(s)] of a [str] ([None]: ValueError). *)
  int_float : Z -> result float;
  str_float : string -> option float;
  str_int : string -> option Z;
  (** [s.lower()]. *)
  str_lower : string -> string;
  (** [str(o)], [bool(o)], [int(o)], [float(o)] of an object, whether it
      is an instance of a class, and the call [cls(v)] of a class. *)
  object_str : object -> string;
  object_bool : object -> bool;
  object_int : object -> result Z;
  object_float : object -> result float;
  object_isinstance : object -> string -> bool;
  construct : string -> value float object -> result (value float object);
  (** [json.loads(s)]; [None] is JSONDecodeError, the failure its
      callers catch. The other failures of the decoder (RecursionError on
      a deeply nested text) are not modelled: a statement about a text
      is about one that is decoded or refused as malformed. *)
  json_loads : string -> option (json float)
}.

Section Builtins.
Context `{RT : Runtime}.

Definition val := value float object.

Definition is_none (v : val) : bool :=
  match v with
  | PyNone => true
  | _ => false
  end.

(** [str(v)]. *)
Definition str (v : val) : string :=
  match v with
  | PyNone => "None"
  | PyBool true => "True"
  | PyBool false => "False"
  | PyInt n => pretty n
  | PyFloat x => float_str x
  | PyStr s => s
  | PyObject o => object_str o
  end.

(** [bool(v)]. *)
Definition truthy (v : val) : bool :=
  match v with
  | PyNone => false
  | PyBool b => b
  | PyInt n => negb (n =? 0)
  | PyFloat x => float_bool x
  | PyStr s => negb (String.eqb s "")
  | PyObject o => object_bool o
  end.

(** [int(v)]. *)
Definition int (v : val) : result Z :=
  match v with
  | PyNone => Raise TypeError
  | PyBool b => Ok (if b then 1 else 0)
  | PyInt n => Ok n
  | PyFloat x => float_int x
  | PyStr s =>
      match str_int s with
      | Some n => Ok n
      | None => Raise ValueError
      end
  | PyObject o => object_int o
  end.

(** [float(v)]. *)
Definition to_float (v : val) : result float :=
  match v with
  | PyNone => Raise TypeError
  | PyBool b => int_float (if b then 1 else 0)
  | PyInt n => int_float n
  | PyFloat x => Ok x
  | PyStr s =>
      match str_float s with
      | Some x => Ok x
      | None => Raise ValueError
      end
  | PyObject o => object_float o
  end.

(** [isinstance(v, cls)] for a library class [cls]. *)
Definition isinstance (v : val) (cls : string) : bool :=
  match v with
  | PyObject o => object_isinstance o cls
  | _ => false
  end.

(** [value not in (None, "")]. *)
Definition not_blank (v : val) : bool :=
  match v with
  | PyNone => false
  | PyStr s => negb (String.eqb s "")
  | _ => true
  end.

End Builtins.

(** An insertion-ordered [dict] with [str] keys. *)
Definition dict (V : Type) := list (string * V).

Definition dict_get {V} (key : string) (d : dict V) : option V :=
  snd <$> List.find (fun kv => String.eqb (fst kv) key) d.

(** [d[key] = v]: a present key keeps its place. *)
Fixpoint dict_set {V} (key : string) (v : V) (d : dict V) : dict V :=
  match d with
  | [] => [(key, v)]
  | (k, x) :: rest =>
      if String.eqb k key then (k, v) :: rest else (k, x) :: dict_set key v rest
  end.

(** [d[key] = v] for a (key, v) pair, as a loop body. *)
Definition assign {V} (d : dict V) (pair : string * V) : dict V :=
  dict_set (fst pair) (snd pair) d.

Definition dict_remove {V} (key : string) (d : dict V) : dict V :=
  List.filter (fun kv => negb (String.eqb (fst kv) key)) d.

(** A small runtime to run the model on: the floats are the integral
    ones that an int represents exactly, there are no objects of library
    classes, [int] and [float] read ASCII digits with an optional sign and
    blanks around, [lower] maps ASCII letters, and the decoder accepts the
    JSON documents that are one integer. It serves the examples; the
    theorems are about every runtime. *)
Definition reference_runtime : Runtime :=
  {| float := Z;
     object := Empty_set;
     float_str := fun x => pretty x +:+ ".0";
     float_bool := fun x => negb (x =? 0);
     float_int := fun x => Ok x;
     int_float := fun n => Ok n;
     str_float := fun s => Str.decimal (Str.strip s);
     str_int := fun s => Str.decimal (Str.strip s);
     str_lower := Str.lower;
     object_str := fun o => match o with end;
     object_bool := fun o => match o with end;
     object_int := fun o => match o with end;
     object_float := fun o => match o with end;
     object_isinstance := fun o _ => match o with end;
     construct := fun _ _ => Raise TypeError;
     json_loads := fun s => JInt <$> Str.json_integer s |}.

End Py.

(** ** JSON text of a list of strings

    [json.dumps(urls, ensure_ascii=False)] for a list of [str]: the
    gallery column stores this text. *)

Module Json.

Definition dquote : ascii := ascii_of_N 34.

Definition hex_digit (n : N) : ascii :=
  ascii_of_N (if (n <? 10)%N then 48 + n else 87 + n)%N.

(** The escape of one character ([ESCAPE_DCT] of the encoder). *)
Definition escape_char (c : ascii) : string :=
  let n := N_of_ascii c in
  if (n =? 34)%N then "\" +:+ String dquote ""
  else if (n =? 92)%N then "\\"
  else if (n =? 8)%N then "\b"
  else if (n =? 9)%N then "\t"
  else if (n =? 10)%N then "\n"
  else if (n =? 12)%N then "\f"
  else if (n =? 13)%N then "\r"
  else if (n <? 32)%N then
    "\u00" +:+ String (hex_digit (n / 16)) (String (hex_digit (n mod 16)) "")
  else String c "".

Fixpoint escape (s : string) : string :=
  match s with
  | EmptyString => ""
  | String c rest => escape_char c +:+ escape rest
  end.

Definition dumps_str (s : string) : string :=
  String dquote (escape s) +:+ String dquote "".

Fixpoint join (sep : string) (parts : list string) : string :=
  match parts with
  | [] => ""
  | [x] => x
  | x :: rest => x +:+ sep +:+ join sep rest
  end.

Definition dumps_list (items : list string) : string :=
  "[" +:+ join ", " (map dumps_str items) +:+ "]".

End Json.

(** ** SQL three-valued conditions

    A comparison with a NULL column value is unknown; a WHERE clause keeps
    the rows whose condition is true. *)

Module Sql.

(** [None] is SQL's UNKNOWN. *)
Definition cond := option bool.

(** [column == value] on a NOT NULL column. *)
Definition eq_col (column value : Z) : cond := Some (column =? value).

(** [column == value] on a nullable column. *)
Definition eq_nullable (column : option Z) (value : Z) : cond :=
  match column with
  | Some c => Some (c =? value)
  | None => None
  end.

(** [column.is_(None)], i.e. [column IS NULL]. *)
Definition is_null (column : option Z) : cond :=
  match column with
  | Some _ => Some false
  | None => Some true
  end.

(** [column.is_(True)] on a boolean column. *)
Definition is_true (column : bool) : cond := Some column.

(** Kleene conjunction. *)
Definition and2 (a b : cond) : cond :=
  match a, b with
  | Some false, _ | _, Some false => Some false
  | Some true, Some true => Some true
  | _, _ => None
  end.

(** SQLAlchemy's [and_] over a list of conditions. *)
Definition and_ (filters : list cond) : cond := foldr and2 (Some true) filters.

(** A row is selected when its condition evaluates to true. *)
Definition holds (c : cond) : bool :=
  match c with
  | Some b => b
  | None => false
  end.

(** [select(T).where(condition)] over the rows of [T]. *)
Definition select_where {A} (condition : A -> cond) (rows : list A) : list A :=
  List.filter (fun r => holds (condition r)) rows.

End Sql.

(** ** Variation registry ([app/admin_routes.py]) *)

Module Registry.

(** [models.CarcassDesignCombination]. The [code] column is filled by
    the [before_insert] listener from a fresh uuid and the timestamps by
    the server; neither is read by the routes and both are left out. *)
Record CarcassDesignCombination := {
  id : Z;
  carcass_id : Z;
  carcass_color_id : Z;
  design_color_id : Z;
  name : string;
  main_image_url : option string;
  gallery_image_urls : string;
  active : bool;
  is_default : bool
}.

(** The tables the routes read and write. Of a carcass or colour only
    its name is read, so those tables map an id to a name. *)
Record Db := {
  carcasses : gmap Z string;
  carcass_colors : gmap Z string;
  design_colors : gmap Z string;
  combinations : list CarcassDesignCombination
}.

Definition with_combinations (db : Db) (rows : list CarcassDesignCombination) : Db :=
  {| carcasses := carcasses db;
     carcass_colors := carcass_colors db;
     design_colors := design_colors db;
     combinations := rows |}.

(** An uploaded file, with the public URL [save_upload_file] returns
    for it (the storage itself is outside this model). *)
Record UploadFile := {
  filename : string;
  saved_as : string
}.

Inductive Response :=
| RedirectResponse (carcass_pk : Z) (query : string) (status_code : Z)
| HTTPException (status_code : Z) (detail : option string).

(** [_ensure_admin]: the request's session carries an admin token. *)
Definition _ensure_admin (admin_session : bool) : bool := admin_session.

Definition _save_optional (file : option UploadFile) : option string :=
  match file with
  | Some f => if String.eqb (filename f) "" then None else Some (saved_as f)
  | None => None
  end.

Definition _save_gallery (files : list UploadFile) : list string :=
  map saved_as (List.filter (fun f => negb (String.eqb (filename f) "")) files).

(** The autoincremented primary key of a new row: above every id in
    the table. *)
Definition next_id (rows : list CarcassDesignCombination) : Z :=
  1 + foldr Z.max 0 (map id rows).

Definition set_is_default (flag : bool) (combo : CarcassDesignCombination)
  : CarcassDesignCombination :=
  {| id := id combo;
     carcass_id := carcass_id combo;
     carcass_color_id := carcass_color_id combo;
     design_color_id := design_color_id combo;
     name := name combo;
     main_image_url := main_image_url combo;
     gallery_image_urls := gallery_image_urls combo;
     active := active combo;
     is_default := flag |}.

(** The loop of [_set_default_variation] over the rows of the table:
    [combo.is_default = combo.id == variation_id] on the rows of the
    carcass. *)
Definition mark (carcass variation_id : Z) (rows : list CarcassDesignCombination)
  : list CarcassDesignCombination :=
  map (fun combo =>
         if carcass_id combo =? carcass
         then set_is_default (id combo =? variation_id) combo
         else combo) rows.

(** [_set_default_variation]: the rows of the carcass are selected,
    re-flagged, and the session is committed. *)
Definition _set_default_variation (carcass variation_id : Z) (db : Db) : Db :=
  with_combinations db (mark carcass variation_id (combinations db)).

(** [session.get(CarcassDesignCombination, variation_id)]. *)
Definition get_combination (variation_id : Z) (db : Db)
  : option CarcassDesignCombination :=
  List.find (fun combo => id combo =? variation_id) (combinations db).

(** The duplicate query of [create_variation]. *)
Definition existing (carcass carcass_color design_color : Z) (db : Db)
  : option CarcassDesignCombination :=
  head (Sql.select_where
          (fun combo =>
             Sql.and_ [ Sql.eq_col (carcass_id combo) carcass;
                        Sql.eq_col (carcass_color_id combo) carcass_color;
                        Sql.eq_col (design_color_id combo) design_color ])
          (combinations db)).

Definition create_variation
    (admin_session : bool) (carcass carcass_color design_color : Z)
    (main_image_upload : option UploadFile) (gallery_uploads : list UploadFile)
    (default : bool) (db : Db) : Response * Db :=
  if negb (_ensure_admin admin_session) then (HTTPException 403 None, db) else
  match carcasses db !! carcass with
  | None => (HTTPException 404 (Some "Carcass not found"), db)
  | Some carcass_name =>
    match existing carcass carcass_color design_color db with
    | Some _ => (RedirectResponse carcass "?variation_error=duplicate" 302, db)
    | None =>
      match carcass_colors db !! carcass_color, design_colors db !! design_color with
      | Some carcass_color_name, Some design_color_name =>
        let main_url := _save_optional main_image_upload in
        let gallery_urls := _save_gallery gallery_uploads in
        let combination :=
          {| id := next_id (combinations db);
             carcass_id := carcass;
             carcass_color_id := carcass_color;
             design_color_id := design_color;
             name := carcass_name +:+ " · " +:+ carcass_color_name
                       +:+ " + " +:+ design_color_name;
             main_image_url := main_url;
             gallery_image_urls := Json.dumps_list gallery_urls;
             active := true;
             is_default := default |} in
        let db1 := with_combinations db (combinations db ++ [combination]) in
        let db2 := if default
                   then _set_default_variation carcass (id combination) db1
                   else db1 in
        (RedirectResponse carcass "?variation_status=created" 302, db2)
      | _, _ => (HTTPException 404 (Some "Color not found"), db)
      end
    end
  end.

Definition delete_variation
    (admin_session : bool) (carcass variation_id : Z) (db : Db) : Response * Db :=
  if negb (_ensure_admin admin_session) then (HTTPException 403 None, db) else
  match get_combination variation_id db with
  | Some variation =>
    if carcass_id variation =? carcass then
      (RedirectResponse carcass "?variation_status=deleted" 302,
       with_combinations db
         (List.filter (fun combo => negb (id combo =? variation_id))
                      (combinations db)))
    else (HTTPException 404 (Some "Variation not found"), db)
  | None => (HTTPException 404 (Some "Variation not found"), db)
  end.

Definition set_default_variation
    (admin_session : bool) (carcass variation_id : Z) (db : Db) : Response * Db :=
  if negb (_ensure_admin admin_session) then (HTTPException 403 None, db) else
  match get_combination variation_id db with
  | Some variation =>
    if carcass_id variation =? carcass then
      (RedirectResponse carcass "?variation_status=updated" 302,
       _set_default_variation carcass variation_id db)
    else (HTTPException 404 (Some "Variation not found"), db)
  | None => (HTTPException 404 (Some "Variation not found"), db)
  end.

(** The requests an administrator can send to the registry. *)
Inductive Request :=
| CreateVariation (admin_session : bool) (carcass carcass_color design_color : Z)
    (main_image_upload : option UploadFile) (gallery_uploads : list UploadFile)
    (default : bool)
| SetDefaultVariation (admin_session : bool) (carcass variation_id : Z)
| DeleteVariation (admin_session : bool) (carcass variation_id : Z).

Definition handle (r : Request) (db : Db) : Response * Db :=
  match r with
  | CreateVariation a c cc dc main gallery d =>
      create_variation a c cc dc main gallery d db
  | SetDefaultVariation a c v => set_default_variation a c v db
  | DeleteVariation a c v => delete_variation a c v db
  end.

(** Requests served one after the other; the responses come back in
    request order. *)
Fixpoint run (requests : list Request) (db : Db) : list Response * Db :=
  match requests with
  | [] => ([], db)
  | r :: rest =>
      let '(response, db1) := handle r db in
      let '(responses, db2) := run rest db1 in
      (response :: responses, db2)
  end.

Definition is_delete (r : Request) : bool :=
  match r with
  | DeleteVariation _ _ _ => true
  | _ => false
  end.

(** Number of rows of [carcass] flagged as default. *)
Definition defaults_in (carcass : Z) (rows : list CarcassDesignCombination) : nat :=
  length (List.filter (fun combo => (carcass_id combo =? carcass) && is_default combo) rows).

(** Number of variations of a carcass flagged as default. *)
Definition default_count (carcass : Z) (db : Db) : nat :=
  defaults_in carcass (combinations db).

(** A request that set a default for [carcass]: a registration with
    [is_default] that was created, or an accepted set-default. *)
Definition accepted (status : string) (response : Response) : bool :=
  match response with
  | RedirectResponse _ query _ => String.eqb query ("?variation_status=" +:+ status)
  | HTTPException _ _ => false
  end.

Definition sets_default (carcass : Z) (exchange : Request * Response) : bool :=
  match exchange with
  | (CreateVariation _ c _ _ _ _ default, response) =>
      default && accepted "created" response && (c =? carcass)
  | (SetDefaultVariation _ c _, response) =>
      accepted "updated" response && (c =? carcass)
  | (DeleteVariation _ _ _, _) => false
  end.

(** The primary keys of the stored variations are pairwise distinct. *)
Definition ids_unique (db : Db) : Prop := NoDup (map id (combinations db)).

(** The triple is registered. *)
Definition registered (carcass carcass_color design_color : Z) (db : Db) : Prop :=
  exists combo, combo ∈ combinations db
                /\ carcass_id combo = carcass
                /\ carcass_color_id combo = carcass_color
                /\ design_color_id combo = design_color.

(** A catalog with one carcass and two colours of each family, and no
    variation yet. *)
Definition example_db : Db :=
  {| carcasses := {[ 1 := "Base" ]};
     carcass_colors := {[ 1 := "White"; 2 := "Black" ]};
     design_colors := {[ 1 := "Oak"; 2 := "Steel" ]};
     combinations := [] |}.

Definition example_requests : list Request :=
  [ CreateVariation true 1 1 1 None [] true;
    CreateVariation true 1 2 1 None [] true;
    SetDefaultVariation true 1 1;
    CreateVariation true 1 1 2 None [] false;
    SetDefaultVariation true 1 9 ].

(** The (carcass, carcass colour, design colour) triple of a variation. *)
Definition triple (combo : CarcassDesignCombination) : Z * Z * Z :=
  (carcass_id combo, carcass_color_id combo, design_color_id combo).

End Registry.

(** ** Bundle matcher ([app/api/bundles.py]) *)

Module Matcher.

(** [models.Bundle] (timestamps left out). *)
Record Bundle := {
  id : Z;
  name : string;
  coffee_machine_id : Z;
  fridge_id : option Z;
  carcass_id : Z;
  carcass_color_id : Z;
  design_color_id : Z;
  terminal_id : option Z;
  carcass_design_combination_id : option Z;
  custom_price : option Z;
  ozon_url : option string;
  is_available : bool;
  show_on_site : bool
}.

(** The query parameters of [preview_bundle], as FastAPI parsed them
    into ints; an omitted optional parameter is [None]. *)
Record Selection := {
  q_coffee_machine_id : Z;
  q_fridge_id : option Z;
  q_carcass_id : Z;
  q_carcass_color_id : Z;
  q_design_color_id : Z;
  q_terminal_id : option Z;
  q_carcass_design_combination_id : option Z
}.

Record PreviewResponse := {
  is_exact_bundle : bool;
  bundle_id : option Z;
  r_custom_price : option Z;
  r_ozon_url : option string
}.

(** What the endpoint answers: the response of the handler, or 422 when
    a parameter fails its validation. *)
Inductive Reply :=
| Answer (response : PreviewResponse)
| UnprocessableEntity.

Record BundleSchema := {
  s_id : Z;
  s_name : string;
  s_coffee_machine_id : Z;
  s_fridge_id : option Z;
  s_carcass_id : Z;
  s_carcass_color_id : Z;
  s_design_color_id : Z;
  s_terminal_id : option Z;
  s_carcass_design_combination_id : option Z;
  s_custom_price : option Z;
  s_ozon_url : option string;
  s_is_available : bool
}.

Definition _bundle_to_schema (bundle : Bundle) : BundleSchema :=
  {| s_id := id bundle;
     s_name := name bundle;
     s_coffee_machine_id := coffee_machine_id bundle;
     s_fridge_id := fridge_id bundle;
     s_carcass_id := carcass_id bundle;
     s_carcass_color_id := carcass_color_id bundle;
     s_design_color_id := design_color_id bundle;
     s_terminal_id := terminal_id bundle;
     s_carcass_design_combination_id := carcass_design_combination_id bundle;
     s_custom_price := custom_price bundle;
     s_ozon_url := ozon_url bundle;
     s_is_available := is_available bundle |}.

(** [list_bundles]: the bundles marked for the site. The table is kept
    in id order, so [order_by(Bundle.id)] is the scan order. *)
Definition list_bundles (bundles : list Bundle) : list BundleSchema :=
  map _bundle_to_schema
      (Sql.select_where (fun b => Sql.is_true (show_on_site b)) bundles).

(** The [filters] list that [preview_bundle] builds, evaluated on a row. *)
Definition filters (q : Selection) (b : Bundle) : list Sql.cond :=
  [ Sql.eq_col (coffee_machine_id b) (q_coffee_machine_id q);
    Sql.eq_col (carcass_id b) (q_carcass_id q);
    Sql.eq_col (carcass_color_id b) (q_carcass_color_id q);
    Sql.eq_col (design_color_id b) (q_design_color_id q) ]
  ++ [ match q_fridge_id q with
       | None => Sql.is_null (fridge_id b)
       | Some f => Sql.eq_nullable (fridge_id b) f
       end ]
  ++ match q_carcass_design_combination_id q with
     | Some v => [ Sql.eq_nullable (carcass_design_combination_id b) v ]
     | None => []
     end
  ++ [ match q_terminal_id q with
       | None => Sql.is_null (terminal_id b)
       | Some t => Sql.eq_nullable (terminal_id b) t
       end ].

(** [select(Bundle).where(and_ filters).limit(1)] then [.first()]. *)
Definition find_exact (q : Selection) (bundles : list Bundle) : option Bundle :=
  head (take 1 (Sql.select_where (fun b => Sql.and_ (filters q b)) bundles)).

(** [Query(..., ge=1)] on a required and on an optional parameter. *)
Definition ge_1 (n : Z) : bool := 1 <=? n.

Definition optional_ge_1 (n : option Z) : bool :=
  match n with
  | None => true
  | Some n => ge_1 n
  end.

(** The bounds in the signature of [preview_bundle]: every id that is
    given is at least 1. *)
Definition valid (q : Selection) : bool :=
  ge_1 (q_coffee_machine_id q)
  && optional_ge_1 (q_fridge_id q)
  && ge_1 (q_carcass_id q)
  && ge_1 (q_carcass_color_id q)
  && ge_1 (q_design_color_id q)
  && optional_ge_1 (q_terminal_id q)
  && optional_ge_1 (q_carcass_design_combination_id q).

(** [preview_bundle]: the parameters are validated before the body
    runs. *)
Definition preview_bundle (q : Selection) (bundles : list Bundle) : Reply :=
  if valid q then
    match find_exact q bundles with
    | None =>
        Answer {| is_exact_bundle := false; bundle_id := None;
                  r_custom_price := None; r_ozon_url := None |}
    | Some bundle =>
        Answer {| is_exact_bundle := true; bundle_id := Some (id bundle);
                  r_custom_price := custom_price bundle; r_ozon_url := ozon_url bundle |}
    end
  else UnprocessableEntity.

(** What the specification calls an exact match of a selection. *)
Definition optional_agrees (supplied stored : option Z) : Prop :=
  match supplied with
  | None => stored = None
  | Some x => stored = Some x
  end.

Definition tuple_agrees (q : Selection) (b : Bundle) : Prop :=
  coffee_machine_id b = q_coffee_machine_id q
  /\ carcass_id b = q_carcass_id q
  /\ carcass_color_id b = q_carcass_color_id q
  /\ design_color_id b = q_design_color_id q
  /\ optional_agrees (q_fridge_id q) (fridge_id b)
  /\ optional_agrees (q_terminal_id q) (terminal_id b)
  /\ (forall v, q_carcass_design_combination_id q = Some v ->
                carcass_design_combination_id b = Some v).

(** Overwrite the two visibility flags of a bundle. *)
Definition with_flags (available shown : bool) (b : Bundle) : Bundle :=
  {| id := id b; name := name b;
     coffee_machine_id := coffee_machine_id b;
     fridge_id := fridge_id b;
     carcass_id := carcass_id b;
     carcass_color_id := carcass_color_id b;
     design_color_id := design_color_id b;
     terminal_id := terminal_id b;
     carcass_design_combination_id := carcass_design_combination_id b;
     custom_price := custom_price b;
     ozon_url := ozon_url b;
     is_available := available;
     show_on_site := shown |}.

(** The selection and the bundle of the specification's example. *)
Definition example_bundle : Bundle :=
  {| id := 7; name := "Kiosk";
     coffee_machine_id := 1; fridge_id := None;
     carcass_id := 2; carcass_color_id := 3; design_color_id := 4;
     terminal_id := None; carcass_design_combination_id := None;
     custom_price := Some 99000; ozon_url := None;
     is_available := true; show_on_site := true |}.

Definition example_selection (fridge : option Z) : Selection :=
  {| q_coffee_machine_id := 1; q_fridge_id := fridge;
     q_carcass_id := 2; q_carcass_color_id := 3; q_design_color_id := 4;
     q_terminal_id := None; q_carcass_design_combination_id := None |}.

End Matcher.

(** ** Bundle mutation ([BundleAdmin.on_model_change] in [app/admin.py]) *)

Module BundleAdmin.
Import Py.

Inductive model_class := CoffeeMachine | Fridge | Terminal.

(** A value of the submitted form: nothing, text, a number, a flag, or
    a loaded model instance. *)
Inductive form_value :=
| FNone
| FText (s : string)
| FInt (n : Z)
| FBool (b : bool)
| FCombination (combo : Registry.CarcassDesignCombination)
| FInstance (cls : model_class) (pk : Z).

Definition model_class_eqb (a b : model_class) : bool :=
  match a, b with
  | CoffeeMachine, CoffeeMachine | Fridge, Fridge | Terminal, Terminal => true
  | _, _ => false
  end.

Section WithRuntime.
Context `{RT : Runtime}.

Definition form_truthy (v : form_value) : bool :=
  match v with
  | FNone => false
  | FText s => negb (String.eqb s "")
  | FInt n => negb (n =? 0)
  | FBool b => b
  | FCombination _ | FInstance _ _ => true
  end.

(** [int(v)]. *)
Definition form_int (v : form_value) : result Z :=
  match v with
  | FText s =>
      match str_int s with
      | Some n => Ok n
      | None => Raise ValueError
      end
  | FInt n => Ok n
  | FBool b => Ok (if b then 1 else 0)
  | FNone | FCombination _ | FInstance _ _ => Raise TypeError
  end.

(** [value in (None, "", "null")]. *)
Definition is_empty_choice (v : form_value) : bool :=
  match v with
  | FNone => true
  | FText s => String.eqb s "" || String.eqb s "null"
  | _ => false
  end.

(** [data.pop(key, None)]. *)
Definition pop (key : string) (data : gmap string form_value)
  : form_value * gmap string form_value :=
  (default FNone (data !! key), delete key data).

(** The variation the form attaches, if any: the submitted instance, or
    the stored row with the submitted id. *)
Definition resolve_combination
    (combo_obj : form_value) (combinations : list Registry.CarcassDesignCombination)
  : result (option Registry.CarcassDesignCombination) :=
  if form_truthy combo_obj then
    match combo_obj with
    | FCombination combo => Ok (Some combo)
    | _ =>
        bind (form_int combo_obj)
             (fun key => Ok (List.find (fun c => Registry.id c =? key) combinations))
    end
  else Ok None.

(** [getattr(model, column_name, None)] for the relation columns. *)
Definition relation_column (model : Matcher.Bundle) (column_name : string) : option Z :=
  if String.eqb column_name "coffee_machine_id" then Some (Matcher.coffee_machine_id model)
  else if String.eqb column_name "fridge_id" then Matcher.fridge_id model
  else if String.eqb column_name "terminal_id" then Matcher.terminal_id model
  else None.

Definition relation_fields : list (string * string * model_class * bool) :=
  [ ("coffee_machine", "coffee_machine_id", CoffeeMachine, false);
    ("fridge", "fridge_id", Fridge, true);
    ("terminal", "terminal_id", Terminal, true) ].

(** One turn of the loop over [relation_fields]. *)
Definition relation_step
    (model : Matcher.Bundle) (is_created : bool)
    (data : gmap string form_value) (field : string * string * model_class * bool)
  : result (gmap string form_value) :=
  let '(attr_name, column_name, model_cls, allow_empty) := field in
  let '(value, data) := pop attr_name data in
  if is_empty_choice value then
    if allow_empty then Ok (<[column_name := FNone]> data)
    else
      match relation_column model column_name with
      | Some current =>
          if negb is_created && negb (current =? 0)
          then Ok (<[column_name := FInt current]> data)
          else Ok data
      | None => Ok data
      end
  else
    match value with
    | FInstance cls pk =>
        if model_class_eqb cls model_cls then Ok (<[column_name := FInt pk]> data)
        else bind (form_int value) (fun n => Ok (<[column_name := FInt n]> data))
    | _ => bind (form_int value) (fun n => Ok (<[column_name := FInt n]> data))
    end.

Fixpoint relation_loop
    (model : Matcher.Bundle) (is_created : bool)
    (fields : list (string * string * model_class * bool))
    (data : gmap string form_value) : result (gmap string form_value) :=
  match fields with
  | [] => Ok data
  | field :: rest =>
      bind (relation_step model is_created data field)
           (relation_loop model is_created rest)
  end.

(** The keys copied from an attached variation. *)
Definition copy_combination
    (combo : Registry.CarcassDesignCombination) (data : gmap string form_value)
  : gmap string form_value :=
  <["design_color_id" := FInt (Registry.design_color_id combo)]>
    (<["carcass_color_id" := FInt (Registry.carcass_color_id combo)]>
       (<["carcass_id" := FInt (Registry.carcass_id combo)]>
          (<["carcass_design_combination_id" := FInt (Registry.id combo)]> data))).

(** [BundleAdmin.on_model_change]: the [data] that is then assigned to
    the model. [ModelView.on_model_change], called last, does nothing. *)
Definition on_model_change
    (data : gmap string form_value) (model : Matcher.Bundle) (is_created : bool)
    (combinations : list Registry.CarcassDesignCombination)
  : result (gmap string form_value) :=
  let '(combo_obj, data) := pop "carcass_design_combination" data in
  bind (resolve_combination combo_obj combinations)
       (fun combo =>
          let data := match combo with
                      | Some c => copy_combination c data
                      | None => data
                      end in
          relation_loop model is_created relation_fields data).

(** sqladmin then sets every entry of [data] as the attribute of that
    name. On the id columns of a bundle: *)
Definition required_id (data : gmap string form_value) (key : string) (current : Z) : Z :=
  match data !! key with
  | Some (FInt n) => n
  | _ => current
  end.

Definition nullable_id (data : gmap string form_value) (key : string) (current : option Z)
  : option Z :=
  match data !! key with
  | Some (FInt n) => Some n
  | Some FNone => None
  | _ => current
  end.

Definition assign_ids (data : gmap string form_value) (model : Matcher.Bundle)
  : Matcher.Bundle :=
  {| Matcher.id := Matcher.id model;
     Matcher.name := Matcher.name model;
     Matcher.coffee_machine_id :=
       required_id data "coffee_machine_id" (Matcher.coffee_machine_id model);
     Matcher.fridge_id := nullable_id data "fridge_id" (Matcher.fridge_id model);
     Matcher.carcass_id := required_id data "carcass_id" (Matcher.carcass_id model);
     Matcher.carcass_color_id :=
       required_id data "carcass_color_id" (Matcher.carcass_color_id model);
     Matcher.design_color_id :=
       required_id data "design_color_id" (Matcher.design_color_id model);
     Matcher.terminal_id := nullable_id data "terminal_id" (Matcher.terminal_id model);
     Matcher.carcass_design_combination_id :=
       nullable_id data "carcass_design_combination_id"
                   (Matcher.carcass_design_combination_id model);
     Matcher.custom_price := Matcher.custom_price model;
     Matcher.ozon_url := Matcher.ozon_url model;
     Matcher.is_available := Matcher.is_available model;
     Matcher.show_on_site := Matcher.show_on_site model |}.

End WithRuntime.

(** A stored variation and a form that selects it by id while also
    carrying a carcass id of its own. *)
Definition example_combination : Registry.CarcassDesignCombination :=
  {| Registry.id := 3; Registry.carcass_id := 2;
     Registry.carcass_color_id := 4; Registry.design_color_id := 5;
     Registry.name := "Base"; Registry.main_image_url := None;
     Registry.gallery_image_urls := "[]";
     Registry.active := true; Registry.is_default := false |}.

Definition example_form : gmap string form_value :=
  {[ "name" := FText "Kiosk";
     "carcass_design_combination" := FText "3";
     "carcass_id" := FInt 99;
     "coffee_machine" := FInstance CoffeeMachine 1;
     "fridge" := FText "" ]}.

(** The same form submitted without a variation, and without a machine. *)
Definition example_form_no_variation : gmap string form_value :=
  delete "carcass_design_combination" example_form.

Definition example_form_no_machine : gmap string form_value :=
  delete "coffee_machine" example_form.

End BundleAdmin.

(** ** Spreadsheet rows ([app/excel.py]) *)

Module Excel.
Import Py.

Section WithRuntime.
Context `{RT : Runtime}.

Definition _normalize_cell (v : val) : val :=
  if is_none v then PyStr "" else v.

(** [build_xlsx] as the rows of the sheet it writes (the styling of the
    cells and the encoding of the workbook are openpyxl's). *)
Definition build_xlsx (headers : list string) (rows : list (list val)) : list (list val) :=
  map PyStr headers :: map (map _normalize_cell) rows.

Definition _safe_header (v : val) : string :=
  if is_none v then "" else Str.strip (str v).

(** [[_safe_header(cell) for cell in values if _safe_header(cell)]]. *)
Definition header_row (values : list val) : list string :=
  List.filter (fun header => negb (String.eqb header ""))
              (map _safe_header values).

(** [row_data[header] = cell] over [zip(headers, values)]. *)
Definition row_data (headers : list string) (values : list val) : dict val :=
  foldl assign [] (zip headers values).

(** [any(value not in (None, "") for value in row_data.values())]. *)
Definition has_content (data : dict val) : bool :=
  existsb not_blank (map snd data).

(** [parse_xlsx] on the rows of the active sheet ([iter_rows] with
    [values_only]; reading the workbook from bytes is openpyxl's). *)
Definition parse_xlsx (sheet : list (list val)) : list (dict val) :=
  match sheet with
  | [] => []
  | first :: rest =>
      let headers := header_row first in
      match headers with
      | [] => []
      | _ => List.filter has_content (map (row_data headers) rest)
      end
  end.

End WithRuntime.
End Excel.

(** ** Bulk import ([ExcelImportExportMixin] in [app/admin.py]) *)

Module Codec.
Import Py.

(** [column.type.python_type]. *)
Inductive python_type := TBool | TInt | TFloat | TStr | TClass (cls : string).

Section WithRuntime.
Context `{RT : Runtime}.

(** A column, seen through its [python_type]: [None] when asking for it
    raises NotImplementedError. *)
Definition column := option python_type.

Definition true_words : list string := ["1"; "true"; "yes"; "on"; "да"].

Definition word_in (word : string) (words : list string) : bool :=
  existsb (String.eqb word) words.

(** [_convert_value]. *)
Definition _convert_value (col : column) (value : val) : result val :=
  if is_none value then Ok PyNone else
  match col with
  | None => Ok value
  | Some TBool =>
      match value with
      | PyStr s => Ok (PyBool (word_in (str_lower (Str.strip s)) true_words))
      | _ => Ok (PyBool (truthy value))
      end
  | Some TInt =>
      match value with
      | PyStr s =>
          if String.eqb (Str.strip s) "" then Ok PyNone
          else bind (int value) (fun n => Ok (PyInt n))
      | PyFloat x => bind (float_int x) (fun n => Ok (PyInt n))
      | _ => bind (int value) (fun n => Ok (PyInt n))
      end
  | Some TFloat => bind (to_float value) (fun x => Ok (PyFloat x))
  | Some TStr => Ok (PyStr (if is_none value then "" else str value))
  | Some (TClass cls) =>
      if isinstance value cls then Ok value else construct cls value
  end.

(** [type(v) is t] for the scalar column types. *)
Definition instance_of (t : python_type) (v : val) : bool :=
  match t, v with
  | TBool, PyBool _ => true
  | TInt, PyInt _ => true
  | TFloat, PyFloat _ => true
  | TStr, PyStr _ => true
  | _, _ => false
  end.

(** A stored object: its attributes by name. *)
Definition record := gmap string val.

(** The table of a model, by primary key. *)
Definition table := gmap Z record.

(** The part of a [ModelView] the import reads: the columns of the
    model's table, the names of its primary-key columns, and the
    constraints the database checks when rows are written.
    [onupdate_columns] names the columns with an [onupdate] default
    ([updated_at] of [TimestampMixin]): the database sets them itself
    whenever it updates a row. Their values are not followed here: a
    stored object keeps the value it had, and no statement below is
    about an attribute of that list on a row the import updates. *)
Record ModelView := {
  table_columns : gmap string column;
  pk_columns : list string;
  onupdate_columns : list string;
  constraints : table -> bool
}.

Definition pk_name (view : ModelView) : string :=
  match pk_columns view with
  | name :: _ => name
  | [] => "id"
  end.

(** An open session: the objects loaded from or written to the table,
    and the new objects added but not inserted yet. *)
Record Session := {
  loaded : table;
  pending : list record
}.

(** [session.get(self.model, pk_value)]. The primary keys of this schema
    are Integer columns, whose converted values are ints. *)
Definition session_get (session : Session) (pk_value : val) : option (Z * record) :=
  match pk_value with
  | PyInt key => (fun obj => (key, obj)) <$> loaded session !! key
  | _ => None
  end.

(** [for field, value in cleaned.items(): setattr(obj, field, value)]. *)
Definition set_attributes (obj : record) (cleaned : dict val) : record :=
  foldl (fun o item => <[fst item := snd item]> o) obj cleaned.

(** The inner loop of [_import_rows]: the cells of one row whose header
    names a column, converted. *)
Fixpoint clean (view : ModelView) (items : list (string * val)) (cleaned : dict val)
  : result (dict val) :=
  match items with
  | [] => Ok cleaned
  | (key, value) :: rest =>
      match table_columns view !! key with
      | None => clean view rest cleaned
      | Some col =>
          bind (_convert_value col value)
               (fun converted => clean view rest (dict_set key converted cleaned))
      end
  end.

(** [key in table_columns] for the key of a cell. *)
Definition in_table (view : ModelView) (item : string * val) : bool :=
  bool_decide (is_Some (table_columns view !! fst item)).

(** One turn of the outer loop. *)
Definition import_row (view : ModelView) (session : Session) (row : dict val)
  : result Session :=
  bind (clean view row [])
       (fun cleaned =>
          match cleaned with
          | [] => Ok session
          | _ =>
              let pk_value := default PyNone (dict_get (pk_name view) cleaned) in
              let cleaned := dict_remove (pk_name view) cleaned in
              match (if not_blank pk_value then session_get session pk_value else None) with
              | Some (key, obj) =>
                  Ok {| loaded := <[key := set_attributes obj cleaned]> (loaded session);
                        pending := pending session |}
              | None =>
                  Ok {| loaded := loaded session;
                        pending := pending session ++ [set_attributes ∅ cleaned] |}
              end
          end).

Fixpoint import_loop (view : ModelView) (rows : list (dict val)) (session : Session)
  : result Session :=
  match rows with
  | [] => Ok session
  | row :: rest =>
      bind (import_row view session row) (fun session' => import_loop view rest session')
  end.

(** The key the database gives the next inserted row. *)
Definition next_key (t : table) : Z :=
  1 + foldr Z.max 0 (map fst (map_to_list t)).

(** [session.commit()]: the pending objects are inserted under fresh
    keys and everything is written, unless a constraint fails. (On the
    rows it updates the database also sets the [onupdate_columns], see
    [ModelView].) *)
Definition flush (view : ModelView) (session : Session) : result table :=
  let written :=
    foldl (fun t obj =>
             let key := next_key t in
             <[key := <[pk_name view := PyInt key]> obj]> t)
          (loaded session) (pending session) in
  if constraints view written then Ok written else Raise IntegrityError.

(** The attribute [column] of the row stored under [key]. *)
Definition stored_attribute (t : table) (key : Z) (column : string) : option val :=
  match t !! key with
  | Some obj => obj !! column
  | None => None
  end.

(** [_import_rows], from the stored table to the outcome and the
    stored table afterwards. The session works on its own copy; leaving
    the [async with] block on an exception closes it without a commit. *)
Definition _import_rows (view : ModelView) (rows : list (dict val)) (stored : table)
  : result unit * table :=
  match import_loop view rows {| loaded := stored; pending := [] |} with
  | Raise e => (Raise e, stored)
  | Ok session =>
      match flush view session with
      | Ok written => (Ok tt, written)
      | Raise e => (Raise e, stored)
      end
  end.

(** [handle_import_bytes], from the rows of the uploaded sheet. *)
Definition handle_import_bytes (view : ModelView) (sheet : list (list val)) (stored : table)
  : result unit * table :=
  match Excel.parse_xlsx sheet with
  | [] => (Ok tt, stored)
  | rows => _import_rows view rows stored
  end.

End WithRuntime.

(** The import view of the coffee machines ([CoffeeMachineAdmin]), with
    the NOT NULL constraint on [name]. *)
Definition machine_view : @ModelView reference_runtime :=
  {| table_columns :=
       {[ "id" := Some TInt; "code" := Some TStr; "name" := Some TStr;
          "specs" := Some TStr; "price" := Some TInt;
          "main_image_url" := Some TStr; "gallery_image_urls" := Some TStr;
          "active" := Some TBool; "short_title" := Some TStr ]};
     pk_columns := ["id"];
     onupdate_columns := [];
     constraints := fun t =>
       forallb (fun entry => bool_decide (is_Some (snd entry !! "name")))
               (map_to_list t) |}.

Definition machine_table : @table reference_runtime :=
  {[ 1 := {[ "id" := PyInt 1; "name" := PyStr "Espresso"; "price" := PyInt 100 ]} ]}.

Definition machine_rows : list (dict (@val reference_runtime)) :=
  [ [ ("id", PyInt 1); ("name", PyStr "Espresso"); ("price", PyInt 120) ];
    [ ("id", PyNone); ("name", PyStr "Latte"); ("price", PyStr "abc") ] ].

(** A sheet with one new machine. *)
Definition machine_new_rows : list (dict (@val reference_runtime)) :=
  [ [ ("id", PyNone); ("name", PyStr "Latte"); ("price", PyStr "90") ] ].

(** A nullable integer column. *)
Definition nullable_int (n : option Z) : @val reference_runtime :=
  match n with
  | Some n => PyInt n
  | None => PyNone
  end.

(** The row of a bundle in the table [bundles] (the two timestamps left
    out, as in [Matcher.Bundle]). *)
Definition bundle_record (b : Matcher.Bundle) : @record reference_runtime :=
  {[ "id" := PyInt (Matcher.id b);
     "name" := PyStr (Matcher.name b);
     "coffee_machine_id" := PyInt (Matcher.coffee_machine_id b);
     "fridge_id" := nullable_int (Matcher.fridge_id b);
     "carcass_id" := PyInt (Matcher.carcass_id b);
     "carcass_color_id" := PyInt (Matcher.carcass_color_id b);
     "design_color_id" := PyInt (Matcher.design_color_id b);
     "terminal_id" := nullable_int (Matcher.terminal_id b);
     "carcass_design_combination_id" :=
       nullable_int (Matcher.carcass_design_combination_id b);
     "custom_price" := nullable_int (Matcher.custom_price b);
     "ozon_url" := match Matcher.ozon_url b with
                   | Some url => PyStr url
                   | None => PyNone
                   end;
     "is_available" := PyBool (Matcher.is_available b);
     "show_on_site" := PyBool (Matcher.show_on_site b) ]}.

(** [nullable=False]: the attribute is there and is not [None]. *)
Definition not_null (obj : @record reference_runtime) (column : string) : bool :=
  match obj !! column with
  | Some v => negb (is_none v)
  | None => false
  end.

(** The import view of the bundles ([BundleAdmin], which inherits
    [ExcelImportExportMixin]): every column of [models.Bundle], with the
    NOT NULL constraints on the name and the required ids. The foreign
    keys are declared, but SQLite, the configured engine, does not
    enforce them ([app/db.py] sets no pragma). *)
Definition bundle_view : @ModelView reference_runtime :=
  {| table_columns :=
       <["created_at" := Some (TClass "datetime")]>
         (<["updated_at" := Some (TClass "datetime")]>
            {[ "id" := Some TInt; "name" := Some TStr;
               "coffee_machine_id" := Some TInt; "fridge_id" := Some TInt;
               "carcass_id" := Some TInt; "carcass_color_id" := Some TInt;
               "design_color_id" := Some TInt; "terminal_id" := Some TInt;
               "carcass_design_combination_id" := Some TInt;
               "custom_price" := Some TInt; "ozon_url" := Some TStr;
               "is_available" := Some TBool; "show_on_site" := Some TBool ]});
     pk_columns := ["id"];
     onupdate_columns := ["updated_at"];
     constraints := fun t =>
       forallb (fun entry =>
                  forallb (not_null (snd entry))
                          ["name"; "coffee_machine_id"; "carcass_id";
                           "carcass_color_id"; "design_color_id"])
               (map_to_list t) |}.

(** The bundle of the specification's example, stored under its id 7. *)
Definition bundle_table : @table reference_runtime :=
  {[ 7 := bundle_record Matcher.example_bundle ]}.

(** A sheet that attaches variation 3 to bundle 7 and gives 99 as the
    cabinet, and a sheet row that renames bundle 7. *)
Definition bundle_variation_sheet : list (list (@val reference_runtime)) :=
  [ [ PyStr "id"; PyStr "carcass_design_combination_id"; PyStr "carcass_id" ];
    [ PyInt 7; PyInt 3; PyInt 99 ] ].

Definition bundle_rename_rows : list (dict (@val reference_runtime)) :=
  [ [ ("id", PyInt 7); ("name", PyStr "Kiosk 2") ] ].

End Codec.

(** ** Presentation projector: media references ([app/api/meta.py]) *)

Module Projector.

(** The body of [_absolute_url] for a [str] reference; [base_url] is
    [str(request.base_url)]. *)
Definition absolute (base_url value : string) : string :=
  if String.eqb value "" then value
  else if Str.startswith value "http://" || Str.startswith value "https://" then value
  else
    let base := Str.rstrip_char Str.slash base_url in
    let path := if Str.startswith value "/" then value else "/" +:+ value in
    base +:+ path.

(** [_absolute_url]: [None] is falsy and returned as it is. *)
Definition _absolute_url (value : option string) (base_url : string) : option string :=
  match value with
  | None => None
  | Some v => Some (absolute base_url v)
  end.

(** [_absolute_gallery]: the empty entries are left out. *)
Definition _absolute_gallery (urls : list string) (base_url : string) : list string :=
  map (absolute base_url) (List.filter (fun url => negb (String.eqb url "")) urls).

(** A URI scheme in front (RFC 3986): a letter, then letters, digits,
    [+], [-] or [.], then a colon. *)
Definition is_alpha (c : ascii) : bool :=
  let n := N_of_ascii c in
  ((65 <=? n) && (n <=? 90) || (97 <=? n) && (n <=? 122))%N.

Definition is_scheme_char (c : ascii) : bool :=
  let n := N_of_ascii c in
  (is_alpha c || (48 <=? n) && (n <=? 57) || (n =? 43) || (n =? 45) || (n =? 46))%N.

Fixpoint scheme_tail (s : string) : bool :=
  match s with
  | EmptyString => false
  | String c rest =>
      if (N_of_ascii c =? 58)%N then true
      else if is_scheme_char c then scheme_tail rest else false
  end.

Definition has_scheme (s : string) : bool :=
  match s with
  | String c rest => is_alpha c && scheme_tail rest
  | EmptyString => false
  end.

(** The test [value.startswith(("http://", "https://"))] on its own. *)
Definition is_http (value : string) : bool :=
  Str.startswith value "http://" || Str.startswith value "https://".

End Projector.

(** ** Gallery decoding ([app/schemas.py], [app/models.py]) *)

Module Gallery.
Import Py.

Section WithRuntime.
Context `{RT : Runtime}.

(** The argument of [parse_gallery]: [None], a [str] or a sequence. *)
Inductive gallery_value :=
| GalleryNone
| GalleryText (text : string)
| GallerySequence (items : list (json float)).

(** [for item in data]: a list yields its items, a dict its keys, a
    [str] its characters; nothing else is iterable. *)
Definition iterate (data : json float) : result (list (json float)) :=
  match data with
  | JArray items => Ok items
  | JObject members => Ok (map (fun member => JStr (fst member)) members)
  | JStr s => Ok (map JStr (Str.chars s))
  | JNull | JBool _ | JInt _ | JFloat _ => Raise TypeError
  end.

(** The decoded values that are no containers and no text. *)
Definition is_scalar (data : json float) : bool :=
  match data with
  | JNull | JBool _ | JInt _ | JFloat _ => true
  | JStr _ | JArray _ | JObject _ => false
  end.

(** [[str(item) for item in items if isinstance(item, str) and item]]. *)
Definition string_items (items : list (json float)) : list string :=
  omap (fun item =>
          match item with
          | JStr s => if String.eqb s "" then None else Some s
          | _ => None
          end) items.

(** [schemas.parse_gallery]. *)
Definition parse_gallery (value : gallery_value) : result (list string) :=
  match value with
  | GalleryNone => Ok []
  | GalleryText text =>
      let stripped := Str.strip text in
      if String.eqb stripped "" then Ok []
      else
        match json_loads stripped with
        | None => Ok []
        | Some data => bind (iterate data) (fun items => Ok (string_items items))
        end
  | GallerySequence items => Ok (string_items items)
  end.

(** [CarcassDesignCombination.gallery_urls]; the column holds a [str]
    or nothing. *)
Definition gallery_urls (gallery_image_urls : option string) : result (list string) :=
  let raw := match gallery_image_urls with
             | None => "[]"
             | Some text => if String.eqb text "" then "[]" else text
             end in
  match json_loads raw with
  | None => Ok []
  | Some data =>
      match data with
      | JArray items => Ok (string_items items)
      | _ => Ok []
      end
  end.

(** The [gallery_image_urls] entry that [_catalog_schema], [_color_schema]
    and [_load_variations] build from the stored column. *)
Definition projected_gallery (stored : option string) (base_url : string)
  : result (list string) :=
  bind (parse_gallery match stored with
                      | None => GalleryNone
                      | Some text => GalleryText text
                      end)
       (fun urls => Ok (Projector._absolute_gallery urls base_url)).

End WithRuntime.
End Gallery.

(** ** Upload URLs ([app/config.py], [app/storage.py]) *)

Module Storage.

(** [Settings.uploads_url_prefix_clean], from the configured
    [uploads_url_prefix]. *)
Definition uploads_url_prefix_clean (uploads_url_prefix : string) : string :=
  let prefix :=
    Str.strip (if String.eqb uploads_url_prefix "" then "/uploads"
               else uploads_url_prefix) in
  let prefix := if String.eqb prefix "" then "/uploads" else prefix in
  let prefix := if Str.startswith prefix "/" then prefix else "/" +:+ prefix in
  let stripped := Str.rstrip_char Str.slash prefix in
  if String.eqb stripped "" then "/uploads" else stripped.

(** The public URL [save_upload_file] returns for the file it stored at
    [relative_path] under the uploads directory (writing the file and
    drawing its random name are outside this model). *)
Definition public_url (uploads_url_prefix relative_path : string) : string :=
  uploads_url_prefix_clean uploads_url_prefix +:+ "/" +:+ relative_path.

End Storage.

(** ** Selections read off stored bundles *)

Module Selections.

(** The query that names the ids of a stored bundle. *)
Definition of_bundle (b : Matcher.Bundle) : Matcher.Selection :=
  {| Matcher.q_coffee_machine_id := Matcher.coffee_machine_id b;
     Matcher.q_fridge_id := Matcher.fridge_id b;
     Matcher.q_carcass_id := Matcher.carcass_id b;
     Matcher.q_carcass_color_id := Matcher.carcass_color_id b;
     Matcher.q_design_color_id := Matcher.design_color_id b;
     Matcher.q_terminal_id := Matcher.terminal_id b;
     Matcher.q_carcass_design_combination_id :=
       Matcher.carcass_design_combination_id b |}.

(** The query a configurator sends for a variation, a machine and no
    fridge and no terminal. *)
Definition of_variation (machine : Z) (combo : Registry.CarcassDesignCombination)
  : Matcher.Selection :=
  {| Matcher.q_coffee_machine_id := machine;
     Matcher.q_fridge_id := None;
     Matcher.q_carcass_id := Registry.carcass_id combo;
     Matcher.q_carcass_color_id := Registry.carcass_color_id combo;
     Matcher.q_design_color_id := Registry.design_color_id combo;
     Matcher.q_terminal_id := None;
     Matcher.q_carcass_design_combination_id := Some (Registry.id combo) |}.

End Selections.

(* ===================================================================== *)
(** * Part II: properties                                                 *)
(* ===================================================================== *)

(** ** The first row of a filtered table *)

Section ListFacts.
Context {A : Type} (p : A -> bool).

Lemma head_filter_Some (l : list A) (x : A) :
  head (List.filter p l) = Some x ->
  exists before after,
    l = before ++ x :: after
    /\ p x = true
    /\ Forall (fun y => p y = false) before.
Proof.
  induction l as [|y ys IH]; simpl; [done|].
  destruct (p y) eqn:E; simpl.
  - intros [= <-]. exists [], ys. by repeat split.
  - intros H. destruct (IH H) as (before & after & -> & Hx & Hall).
    exists (y :: before), after. repeat split; [done|]. by constructor.
Qed.

Lemma head_filter_None (l : list A) :
  head (List.filter p l) = None -> Forall (fun y => p y = false) l.
Proof.
  induction l as [|y ys IH]; simpl; [constructor|].
  destruct (p y) eqn:E; simpl; [done|]. intros H. constructor; auto.
Qed.

Lemma head_filter_first (before after : list A) (x : A) :
  Forall (fun y => p y = false) before ->
  p x = true ->
  head (List.filter p (before ++ x :: after)) = Some x.
Proof.
  intros Hall Hx. induction Hall as [|y ys Hy _ IH]; simpl.
  - by rewrite Hx.
  - by rewrite Hy.
Qed.

End ListFacts.

(** ** Conditions that hold *)

Section SqlFacts.

Lemma holds_and2 a b : Sql.holds (Sql.and2 a b) = Sql.holds a && Sql.holds b.
Proof. by destruct a as [[]|], b as [[]|]. Qed.

Lemma holds_and_ fs : Sql.holds (Sql.and_ fs) = forallb Sql.holds fs.
Proof.
  induction fs as [|f fs IH]; [done|].
  cbn [Sql.and_ foldr forallb]. rewrite holds_and2. by rewrite <- IH.
Qed.

Lemma holds_eq_col c v : Sql.holds (Sql.eq_col c v) = true <-> c = v.
Proof. unfold Sql.eq_col. cbn. apply Z.eqb_eq. Qed.

End SqlFacts.

(** ** Variation registry: defaults and duplicates *)

Section RegistryFacts.
Import Registry.

Implicit Types (db : Db) (rows : list CarcassDesignCombination).

Lemma next_id_above rows combo : combo ∈ rows -> id combo < next_id rows.
Proof.
  unfold next_id. induction rows as [|x xs IH]; intros Hin.
  - by apply elem_of_nil in Hin.
  - apply elem_of_cons in Hin as [->|Hin]; simpl; [lia|].
    specialize (IH Hin). lia.
Qed.

Lemma next_id_not_stored rows : next_id rows ∉ map id rows.
Proof.
  intros Hin. apply list_elem_of_fmap in Hin as (combo & Heq & Hin).
  apply next_id_above in Hin. lia.
Qed.

Lemma mark_ids carcass v rows : map id (mark carcass v rows) = map id rows.
Proof.
  unfold mark. rewrite map_map. apply map_ext. intros combo.
  by destruct (carcass_id combo =? carcass).
Qed.

Lemma mark_other carcass carcass' v rows :
  carcass' <> carcass ->
  defaults_in carcass' (mark carcass v rows) = defaults_in carcass' rows.
Proof.
  intros Hne. unfold defaults_in, mark.
  induction rows as [|x xs IH]; [done|]. simpl.
  destruct (carcass_id x =? carcass) eqn:E; simpl.
  - apply Z.eqb_eq in E.
    assert ((carcass_id x =? carcass') = false) as -> by (apply Z.eqb_neq; lia).
    simpl. exact IH.
  - destruct ((carcass_id x =? carcass') && is_default x); simpl; by rewrite IH.
Qed.

Lemma mark_absent carcass v rows :
  v ∉ map id rows -> defaults_in carcass (mark carcass v rows) = 0%nat.
Proof.
  unfold defaults_in, mark.
  induction rows as [|x xs IH]; [done|]. simpl. intros Hnot.
  apply not_elem_of_cons in Hnot as [Hx Hxs].
  destruct (carcass_id x =? carcass) eqn:E; simpl.
  - rewrite E. assert ((id x =? v) = false) as -> by (apply Z.eqb_neq; lia).
    simpl. by apply IH.
  - rewrite E. simpl. by apply IH.
Qed.

Lemma mark_present carcass v rows :
  NoDup (map id rows) ->
  (exists combo, combo ∈ rows /\ id combo = v /\ carcass_id combo = carcass) ->
  defaults_in carcass (mark carcass v rows) = 1%nat.
Proof.
  induction rows as [|x xs IH]; intros Hnd (combo & Hin & Hid & Hc).
  - by apply elem_of_nil in Hin.
  - simpl in Hnd. apply NoDup_cons in Hnd as [Hx Hxs].
    destruct (decide (id x = v)) as [Hxv|Hxv].
    + assert (carcass_id x = carcass) as Hxc.
      { apply elem_of_cons in Hin as [->|Hin]; [done|].
        exfalso. apply Hx. rewrite Hxv, <- Hid. by apply list_elem_of_fmap_2. }
      unfold defaults_in, mark in *. simpl.
      apply Z.eqb_eq in Hxc as Hxc'. rewrite Hxc'. simpl. rewrite Hxc'.
      apply Z.eqb_eq in Hxv as Hxv'. rewrite Hxv'. simpl.
      f_equal. apply mark_absent. by rewrite <- Hxv.
    + apply elem_of_cons in Hin as [->|Hin]; [done|].
      assert (defaults_in carcass (mark carcass v xs) = 1%nat) as Hrec
        by (apply IH; [done|by exists combo]).
      unfold defaults_in, mark in *. simpl.
      destruct (carcass_id x =? carcass) eqn:E; simpl; rewrite E; simpl.
      * assert ((id x =? v) = false) as -> by (by apply Z.eqb_neq). exact Hrec.
      * exact Hrec.
Qed.

Lemma defaults_in_app carcass rows1 rows2 :
  defaults_in carcass (rows1 ++ rows2)
  = (defaults_in carcass rows1 + defaults_in carcass rows2)%nat.
Proof. unfold defaults_in. by rewrite List.filter_app, length_app. Qed.

Lemma find_id_Some v rows combo :
  List.find (fun c => id c =? v) rows = Some combo -> combo ∈ rows /\ id combo = v.
Proof.
  intros H. apply find_some in H as [Hin Hid].
  split; [by apply list_elem_of_In | by apply Z.eqb_eq].
Qed.

(** One request keeps the primary keys distinct. *)
Lemma handle_ids_unique r db : ids_unique db -> ids_unique (handle r db).2.
Proof.
  unfold ids_unique. intros Hnd.
  destruct r as [a c cc dc main gallery d | a c v | a c v]; simpl.
  - unfold create_variation. destruct (negb _); [done|].
    destruct (carcasses db !! c); [|done].
    destruct (existing c cc dc db); [done|].
    destruct (carcass_colors db !! cc), (design_colors db !! dc); try done.
    assert (NoDup (map id (combinations db ++
                     [{| id := next_id (combinations db); carcass_id := c;
                         carcass_color_id := cc; design_color_id := dc;
                         name := s +:+ " · " +:+ s0 +:+ " + " +:+ s1;
                         main_image_url := _save_optional main;
                         gallery_image_urls := Json.dumps_list (_save_gallery gallery);
                         active := true; is_default := d |}]))) as Hnew.
    { rewrite map_app. simpl. apply NoDup_app. split; [done|]. split.
      - intros x Hx Hx'. apply list_elem_of_singleton in Hx'. subst x.
        by apply next_id_not_stored in Hx.
      - apply NoDup_singleton. }
    destruct d; simpl; [|done]. by rewrite mark_ids.
  - unfold set_default_variation. destruct (negb _); [done|].
    destruct (get_combination v db) as [x|]; [|done].
    destruct (carcass_id x =? c); [|done]. simpl. by rewrite mark_ids.
  - unfold delete_variation. destruct (negb _); [done|].
    destruct (get_combination v db) as [x|]; [|done].
    destruct (carcass_id x =? c); [|done]. simpl.
    clear -Hnd. induction (combinations db) as [|y ys IH]; [done|].
    simpl in *. apply NoDup_cons in Hnd as [Hy Hys].
    destruct (negb (id y =? v)); simpl; [|by apply IH].
    apply NoDup_cons. split; [|by apply IH].
    intros Hin. apply Hy. apply list_elem_of_fmap in Hin as (z & Hz & Hin).
    apply list_elem_of_In, filter_In in Hin as [Hin _].
    rewrite Hz. apply list_elem_of_fmap_2. by apply list_elem_of_In.
Qed.

Lemma defaults_in_new carcass c cc dc nm main gallery act d k :
  defaults_in carcass
    [{| id := k; carcass_id := c; carcass_color_id := cc; design_color_id := dc;
        name := nm; main_image_url := main; gallery_image_urls := gallery;
        active := act; is_default := d |}]
  = if (c =? carcass) && d then 1%nat else 0%nat.
Proof. unfold defaults_in. simpl. by destruct ((c =? carcass) && d). Qed.

(** The effect of one request on the number of defaults of a carcass. *)
Lemma handle_default_count r db carcass :
  ids_unique db ->
  is_delete r = false ->
  default_count carcass (handle r db).2
  = if sets_default carcass (r, (handle r db).1) then 1%nat
    else default_count carcass db.
Proof.
  unfold ids_unique, default_count. intros Hnd Hr.
  destruct r as [a c cc dc main gallery d | a c v | a c v]; simpl in *; [| |done].
  - unfold create_variation, _ensure_admin.
    destruct a; simpl; [|by rewrite andb_false_r].
    destruct (carcasses db !! c) as [cn|]; simpl; [|by rewrite andb_false_r].
    destruct (existing c cc dc db); simpl; [by rewrite andb_false_r|].
    destruct (carcass_colors db !! cc) as [ccn|], (design_colors db !! dc) as [dcn|];
      simpl; try (by rewrite andb_false_r).
    destruct d; simpl.
    + destruct (c =? carcass) eqn:E.
      * apply Z.eqb_eq in E. subst c. apply mark_present.
        -- rewrite map_app. simpl. apply NoDup_app. split; [done|]. split.
           ++ intros x Hx Hx'. apply list_elem_of_singleton in Hx'. subst x.
              by apply next_id_not_stored in Hx.
           ++ apply NoDup_singleton.
        -- eexists. split; [apply elem_of_app; right; by apply list_elem_of_singleton|].
           done.
      * apply Z.eqb_neq in E. rewrite mark_other by lia.
        rewrite defaults_in_app, defaults_in_new.
        assert ((c =? carcass) = false) as -> by (by apply Z.eqb_neq).
        simpl. lia.
    + rewrite defaults_in_app, defaults_in_new, andb_false_r. lia.
  - unfold set_default_variation, _ensure_admin.
    destruct a; simpl; [|done].
    destruct (get_combination v db) as [x|] eqn:Hget; simpl; [|done].
    destruct (carcass_id x =? c) eqn:Hx; simpl; [|done].
    apply find_id_Some in Hget as [Hin Hid]. apply Z.eqb_eq in Hx.
    destruct (c =? carcass) eqn:E.
    + apply Z.eqb_eq in E. rewrite <- E. apply mark_present; [done|].
      exists x. repeat split; assumption.
    + apply Z.eqb_neq in E. apply mark_other. lia.
Qed.

Lemma run_ids_unique requests db : ids_unique db -> ids_unique (run requests db).2.
Proof.
  revert db. induction requests as [|r rest IH]; intros db Hnd; [done|].
  simpl. pose proof (handle_ids_unique r db Hnd) as H1.
  destruct (handle r db) as [response db1]. specialize (IH db1 H1).
  by destruct (run rest db1) as [responses db2].
Qed.

(** Over a run without deletions the count is 1 once a request set a
    default for the carcass, and what it was before otherwise. *)
Lemma run_default_count requests db carcass :
  ids_unique db ->
  forallb (fun r => negb (is_delete r)) requests = true ->
  default_count carcass (run requests db).2
  = if existsb (sets_default carcass) (zip requests (run requests db).1) then 1%nat
    else default_count carcass db.
Proof.
  revert db. induction requests as [|r rest IH]; intros db Hnd Hreq; [done|].
  simpl in Hreq. apply andb_true_iff in Hreq as [Hr Hrest].
  apply negb_true_iff in Hr.
  pose proof (handle_default_count r db carcass Hnd Hr) as Hstep.
  pose proof (handle_ids_unique r db Hnd) as Hnd1.
  cbn [run]. destruct (handle r db) as [response db1]. cbn [fst snd] in Hstep, Hnd1.
  specialize (IH db1 Hnd1 Hrest).
  destruct (run rest db1) as [responses db2]. cbn [fst snd] in IH |- *.
  change (zip (r :: rest) (response :: responses))
    with ((r, response) :: zip rest responses).
  cbn [existsb]. rewrite IH, Hstep.
  destruct (sets_default carcass (r, response)); cbn [orb]; [|done].
  by destruct (existsb _ _).
Qed.

(** C2. Starting from an empty variation table, after any sequence of
    register and set-default requests the number of variations of a
    cabinet with [is_default] is 1 when some request of the sequence set
    a default for that cabinet (a registration with [is_default] that
    was created, or an accepted set-default), and 0 otherwise. *)
Theorem default_count_zero_or_one
    (requests : list Request) (db : Db) (carcass : Z) :
  combinations db = [] ->
  forallb (fun r => negb (is_delete r)) requests = true ->
  default_count carcass (run requests db).2
  = (if existsb (sets_default carcass) (zip requests (run requests db).1)
     then 1%nat else 0%nat)
  /\ (default_count carcass (run requests db).2 = 0%nat
      \/ default_count carcass (run requests db).2 = 1%nat).
Proof.
  intros Hempty Hreq.
  assert (ids_unique db) as Hnd by (unfold ids_unique; rewrite Hempty; constructor).
  pose proof (run_default_count requests db carcass Hnd Hreq) as H.
  assert (default_count carcass db = 0%nat) as H0
    by (unfold default_count; by rewrite Hempty).
  rewrite H0 in H. split; [exact H|].
  rewrite H. destruct (existsb _ _); auto.
Qed.

(** After two defaulting registrations, a set-default, a plain
    registration and a rejected set-default, carcass 1 has one default. *)
Lemma default_count_zero_or_one_witness :
  default_count 1 (run example_requests example_db).2
  = (if existsb (sets_default 1)
                (zip example_requests (run example_requests example_db).1)
     then 1%nat else 0%nat)
  /\ (default_count 1 (run example_requests example_db).2 = 0%nat
      \/ default_count 1 (run example_requests example_db).2 = 1%nat).
Proof.
  apply (default_count_zero_or_one example_requests example_db 1).
  - reflexivity.
  - reflexivity.
Defined.

Lemma registered_triple carcass cc dc db :
  registered carcass cc dc db <-> (carcass, cc, dc) ∈ map triple (combinations db).
Proof.
  unfold registered, triple. rewrite list_elem_of_fmap. split.
  - intros (combo & Hin & <- & <- & <-). by exists combo.
  - intros (combo & [= -> -> ->] & Hin). by exists combo.
Qed.

Lemma mark_triples carcass v rows : map triple (mark carcass v rows) = map triple rows.
Proof.
  unfold mark. rewrite map_map. apply map_ext. intros combo.
  by destruct (carcass_id combo =? carcass).
Qed.

Lemma duplicate_condition carcass cc dc combo :
  Sql.holds (Sql.and_ [ Sql.eq_col (carcass_id combo) carcass;
                        Sql.eq_col (carcass_color_id combo) cc;
                        Sql.eq_col (design_color_id combo) dc ]) = true
  <-> triple combo = (carcass, cc, dc).
Proof.
  rewrite holds_and_. cbn [forallb]. rewrite andb_true_r, !andb_true_iff, !holds_eq_col.
  unfold triple. split; [by intros (-> & -> & ->)|]. by intros [= -> -> ->].
Qed.

Lemma existing_registered carcass cc dc db :
  registered carcass cc dc db -> is_Some (existing carcass cc dc db).
Proof.
  rewrite registered_triple, list_elem_of_fmap. intros (combo & Heq & Hin).
  unfold existing, Sql.select_where.
  destruct (head _) as [x|] eqn:E; [by eexists|]. exfalso.
  apply head_filter_None in E. rewrite Forall_forall in E.
  specialize (E combo Hin). symmetry in Heq. apply duplicate_condition in Heq.
  congruence.
Qed.

Lemma existing_unregistered carcass cc dc db :
  ~ registered carcass cc dc db -> existing carcass cc dc db = None.
Proof.
  intros Hnot. unfold existing, Sql.select_where.
  destruct (head _) as [x|] eqn:E; [|done]. exfalso. apply Hnot.
  apply head_filter_Some in E as (before & after & Hrows & Hx & _).
  apply duplicate_condition in Hx. apply registered_triple.
  rewrite Hrows, map_app. apply elem_of_app. right. simpl. rewrite Hx.
  apply elem_of_cons. by left.
Qed.

(** A registration that gets past every check appends one row with the
    requested triple and leaves the catalog tables alone. *)
Lemma create_variation_created carcass cc dc main gallery d db :
  is_Some (carcasses db !! carcass) ->
  is_Some (carcass_colors db !! cc) ->
  is_Some (design_colors db !! dc) ->
  ~ registered carcass cc dc db ->
  let outcome := create_variation true carcass cc dc main gallery d db in
  outcome.1 = RedirectResponse carcass "?variation_status=created" 302
  /\ map triple (combinations outcome.2)
     = map triple (combinations db) ++ [(carcass, cc, dc)]
  /\ carcasses outcome.2 = carcasses db
  /\ carcass_colors outcome.2 = carcass_colors db
  /\ design_colors outcome.2 = design_colors db.
Proof.
  intros [cn Hc] [ccn Hcc] [dcn Hdc] Hnot. unfold create_variation. simpl.
  rewrite Hc, (existing_unregistered _ _ _ _ Hnot), Hcc, Hdc. simpl.
  split; [done|]. destruct d; simpl.
  - rewrite mark_triples, map_app. done.
  - rewrite map_app. done.
Qed.

(** C3. Registering a triple that is already registered for the cabinet
    is answered with the duplicate redirect before anything is inserted,
    and the tables are unchanged. Registering (C,a,b) and then (C,b,a)
    with a <> b, where both ids exist in both colour tables and neither
    triple was registered, creates two variations. *)
Theorem create_variation_rejects_duplicate :
  (forall db carcass cc dc main gallery d,
     is_Some (carcasses db !! carcass) ->
     registered carcass cc dc db ->
     create_variation true carcass cc dc main gallery d db
     = (RedirectResponse carcass "?variation_error=duplicate" 302, db))
  /\ (forall db carcass a b main1 gallery1 d1 main2 gallery2 d2,
     a <> b ->
     is_Some (carcasses db !! carcass) ->
     is_Some (carcass_colors db !! a) -> is_Some (design_colors db !! b) ->
     is_Some (carcass_colors db !! b) -> is_Some (design_colors db !! a) ->
     ~ registered carcass a b db ->
     ~ registered carcass b a db ->
     let first := create_variation true carcass a b main1 gallery1 d1 db in
     let second := create_variation true carcass b a main2 gallery2 d2 first.2 in
     first.1 = RedirectResponse carcass "?variation_status=created" 302
     /\ second.1 = RedirectResponse carcass "?variation_status=created" 302
     /\ registered carcass a b second.2
     /\ registered carcass b a second.2
     /\ map triple (combinations second.2)
        = map triple (combinations db) ++ [(carcass, a, b); (carcass, b, a)]).
Proof.
  split.
  - intros db carcass cc dc main gallery d [cn Hc] Hreg.
    unfold create_variation. simpl. rewrite Hc.
    by destruct (existing_registered _ _ _ _ Hreg) as [x ->].
  - intros db carcass a b main1 gallery1 d1 main2 gallery2 d2
           Hab Hc Hcca Hdcb Hccb Hdca Hnab Hnba first second.
    destruct (create_variation_created carcass a b main1 gallery1 d1 db)
      as (H1 & Ht1 & Hc1 & Hcc1 & Hdc1); try done.
    fold first in H1, Ht1, Hc1, Hcc1, Hdc1.
    assert (~ registered carcass b a first.2) as Hnba1.
    { rewrite registered_triple, Ht1, elem_of_app, list_elem_of_singleton.
      intros [Hin|[= ? ?]]; [|done]. apply Hnba. by apply registered_triple. }
    destruct (create_variation_created carcass b a main2 gallery2 d2 first.2)
      as (H2 & Ht2 & _); try done; try congruence.
    fold second in H2, Ht2.
    split; [done|]. split; [done|].
    rewrite !registered_triple, Ht2, Ht1, <- app_assoc. simpl.
    split; [|split; [|done]]; apply elem_of_app; right.
    + apply elem_of_cons. by left.
    + apply elem_of_cons. right. apply elem_of_cons. by left.
Qed.

(** Carcass 1 with colours 1 and 2: the pair (1,2) is registered twice,
    then the swapped pair (2,1). *)
Lemma create_variation_rejects_duplicate_witness :
  create_variation true 1 1 2 None [] true
    (create_variation true 1 1 2 None [] false example_db).2
  = (RedirectResponse 1 "?variation_error=duplicate" 302,
     (create_variation true 1 1 2 None [] false example_db).2)
  /\ (let first := create_variation true 1 1 2 None [] false example_db in
      let second := create_variation true 1 2 1 None [] true first.2 in
      first.1 = RedirectResponse 1 "?variation_status=created" 302
      /\ second.1 = RedirectResponse 1 "?variation_status=created" 302
      /\ registered 1 1 2 second.2
      /\ registered 1 2 1 second.2
      /\ map triple (combinations second.2)
         = map triple (combinations example_db) ++ [(1, 1, 2); (1, 2, 1)]).
Proof.
  destruct create_variation_rejects_duplicate as [Hdup Hboth]. split.
  - apply Hdup.
    + vm_compute. eauto.
    + eexists. split; [apply elem_of_cons; left; reflexivity|]. by vm_compute.
  - apply Hboth; try (vm_compute; eauto; fail); try lia.
    + intros (x & Hin & _). by apply elem_of_nil in Hin.
    + intros (x & Hin & _). by apply elem_of_nil in Hin.
Defined.

End RegistryFacts.

(** ** Bundle matcher *)

Section MatcherFacts.
Import Matcher.

Lemma holds_optional supplied stored :
  Sql.holds match supplied with
            | None => Sql.is_null stored
            | Some x => Sql.eq_nullable stored x
            end = true
  <-> optional_agrees supplied stored.
Proof.
  destruct supplied as [x|], stored as [s|]; cbn; try (split; congruence).
  rewrite Z.eqb_eq. split; congruence.
Qed.

Lemma holds_variation supplied stored :
  forallb Sql.holds match supplied with
                    | Some v => [ Sql.eq_nullable stored v ]
                    | None => []
                    end = true
  <-> (forall v, supplied = Some v -> stored = Some v).
Proof.
  destruct supplied as [x|], stored as [s|]; cbn.
  - rewrite andb_true_r, Z.eqb_eq. split.
    + intros -> v [= <-]. done.
    + intros H. specialize (H x eq_refl). congruence.
  - split; [done|]. intros H. specialize (H x eq_refl). done.
  - split; [|done]. intros _ v. done.
  - split; [|done]. intros _ v. done.
Qed.

(** The WHERE clause of [preview_bundle] selects exactly the rows that
    agree with the selection. *)
Lemma filters_spec q b :
  Sql.holds (Sql.and_ (filters q b)) = true <-> tuple_agrees q b.
Proof.
  rewrite holds_and_. unfold filters, tuple_agrees.
  rewrite !forallb_app. cbn [forallb].
  rewrite !andb_true_r, !andb_true_iff.
  rewrite !holds_eq_col, !holds_optional, holds_variation.
  tauto.
Qed.

Lemma find_exact_head q bundles :
  find_exact q bundles
  = head (Sql.select_where (fun b => Sql.and_ (filters q b)) bundles).
Proof. unfold find_exact. by destruct (Sql.select_where _ _). Qed.

Lemma filters_spec_false q b :
  Sql.holds (Sql.and_ (filters q b)) = false <-> ~ tuple_agrees q b.
Proof. rewrite <- filters_spec. by destruct (Sql.holds _). Qed.

Lemma find_exact_Some q bundles b :
  find_exact q bundles = Some b ->
  exists before after,
    bundles = before ++ b :: after
    /\ tuple_agrees q b
    /\ Forall (fun x => ~ tuple_agrees q x) before.
Proof.
  rewrite find_exact_head. unfold Sql.select_where. intros H.
  destruct (head_filter_Some _ _ _ H) as (before & after & -> & Hb & Hall).
  exists before, after. split; [done|]. split; [by apply filters_spec|].
  eapply Forall_impl; [exact Hall|]. intros x. apply filters_spec_false.
Qed.

Lemma find_exact_None q bundles :
  find_exact q bundles = None -> Forall (fun x => ~ tuple_agrees q x) bundles.
Proof.
  rewrite find_exact_head. unfold Sql.select_where. intros H.
  eapply Forall_impl; [exact (head_filter_None _ _ H)|].
  intros x. apply filters_spec_false.
Qed.

Lemma find_exact_first q before b after :
  Forall (fun x => ~ tuple_agrees q x) before ->
  tuple_agrees q b ->
  find_exact q (before ++ b :: after) = Some b.
Proof.
  intros Hall Hb. rewrite find_exact_head. unfold Sql.select_where.
  apply head_filter_first; [|by apply filters_spec].
  eapply Forall_impl; [exact Hall|]. intros x. apply filters_spec_false.
Qed.

Example preview_fridge_omitted :
  preview_bundle (example_selection None) [example_bundle]
  = Answer {| is_exact_bundle := true; bundle_id := Some 7;
              r_custom_price := Some 99000; r_ozon_url := None |}.
Proof. reflexivity. Qed.

Example preview_fridge_supplied :
  preview_bundle (example_selection (Some 5)) [example_bundle]
  = Answer {| is_exact_bundle := false; bundle_id := None;
              r_custom_price := None; r_ozon_url := None |}.
Proof. reflexivity. Qed.

(** A fridge id below 1 does not pass the validation. *)
Example preview_fridge_zero :
  preview_bundle (example_selection (Some 0)) [example_bundle] = UnprocessableEntity.
Proof. reflexivity. Qed.

(** C1. The WHERE clause built by [preview_bundle] keeps a bundle exactly
    when it agrees with the selection: equal machine, cabinet,
    cabinet-colour and design-colour ids; for fridge and terminal, an
    omitted parameter only agrees with a stored NULL and a supplied id
    only with that same stored id; a supplied variation id must equal the
    stored one. The row the matcher returns is a stored bundle that
    agrees. A query with an id below 1 is answered 422 and matches
    nothing; every other query is answered, with an exact bundle if and
    only if a stored bundle agrees. *)
Theorem preview_bundle_matches_exact_tuple (q : Selection) (bundles : list Bundle) :
  (forall b, Sql.holds (Sql.and_ (filters q b)) = true <-> tuple_agrees q b)
  /\ (forall b, tuple_agrees q b ->
        (q_fridge_id q = None <-> fridge_id b = None)
        /\ (q_terminal_id q = None <-> terminal_id b = None))
  /\ match find_exact q bundles with
     | Some b => b ∈ bundles /\ tuple_agrees q b
     | None => forall b, b ∈ bundles -> ~ tuple_agrees q b
     end
  /\ (valid q = false -> preview_bundle q bundles = UnprocessableEntity)
  /\ (valid q = true ->
      exists response,
        preview_bundle q bundles = Answer response
        /\ (is_exact_bundle response = true
            <-> exists b, b ∈ bundles /\ tuple_agrees q b)).
Proof.
  split; [intros b; apply filters_spec|].
  split.
  { intros b (_ & _ & _ & _ & Hf & Ht & _). unfold optional_agrees in *.
    destruct (q_fridge_id q), (q_terminal_id q); rewrite Hf, Ht; done. }
  assert (Hfind : match find_exact q bundles with
                  | Some b => b ∈ bundles /\ tuple_agrees q b
                  | None => forall b, b ∈ bundles -> ~ tuple_agrees q b
                  end).
  { destruct (find_exact q bundles) as [b|] eqn:E.
    - destruct (find_exact_Some _ _ _ E) as (before & after & -> & Hb & _).
      split; [|done]. apply elem_of_app. right. apply elem_of_cons. by left.
    - intros b Hin. pose proof (find_exact_None _ _ E) as Hall.
      rewrite Forall_forall in Hall. by apply Hall. }
  split; [exact Hfind|].
  unfold preview_bundle. split; [by intros ->|]. intros ->.
  destruct (find_exact q bundles) as [b|]; eexists; (split; [reflexivity|]); cbn.
  - split; [|done]. intros _. by exists b.
  - split; [done|]. intros (b & Hin & Hb). by destruct (Hfind b Hin).
Qed.

(** C10. [preview_bundle] never looks at [is_available] or
    [show_on_site]: for a selection that passes the validation (every id
    given is at least 1), the first stored bundle that agrees with it is
    reported as the exact bundle whatever its two flags are, also when
    [list_bundles] hides it. *)
Theorem preview_bundle_ignores_visibility
    (q : Selection) (before after : list Bundle) (b : Bundle) (available shown : bool) :
  valid q = true ->
  Forall (fun x => ~ tuple_agrees q x) before ->
  tuple_agrees q b ->
  preview_bundle q (before ++ with_flags available shown b :: after)
  = Answer {| is_exact_bundle := true; bundle_id := Some (id b);
              r_custom_price := custom_price b; r_ozon_url := ozon_url b |}
  /\ (forall x, Sql.holds (Sql.and_ (filters q (with_flags available shown x)))
                = Sql.holds (Sql.and_ (filters q x)))
  /\ list_bundles [with_flags available false b] = [].
Proof.
  intros Hvalid Hbefore Hb. split; [|split; [done|done]].
  unfold preview_bundle. rewrite Hvalid.
  rewrite (find_exact_first q before (with_flags available shown b) after); done.
Qed.

(** A hidden, unavailable bundle is still the exact match of its tuple. *)
Lemma preview_bundle_ignores_visibility_witness :
  preview_bundle (example_selection None)
                 ([] ++ with_flags false false example_bundle :: [])
  = Answer {| is_exact_bundle := true; bundle_id := Some 7;
              r_custom_price := Some 99000; r_ozon_url := None |}
  /\ (forall x, Sql.holds (Sql.and_ (filters (example_selection None)
                                             (with_flags false false x)))
                = Sql.holds (Sql.and_ (filters (example_selection None) x)))
  /\ list_bundles [with_flags false false example_bundle] = [].
Proof.
  apply (preview_bundle_ignores_visibility
           (example_selection None) [] [] example_bundle false false).
  - reflexivity.
  - constructor.
  - unfold tuple_agrees; simpl. repeat split; try reflexivity. intros v H; discriminate H.
Defined.

End MatcherFacts.

(** ** Bundle mutation *)

Section BundleAdminFacts.
Import Py BundleAdmin.
Context `{RT : Runtime}.

(** A turn of the relation loop only touches its own two keys. *)
Lemma relation_step_other model is_created data attr column cls allow data' key :
  key <> attr -> key <> column ->
  relation_step model is_created data (attr, column, cls, allow) = Ok data' ->
  data' !! key = data !! key.
Proof.
  intros Hattr Hcolumn. unfold relation_step, pop, bind.
  intros Hstep.
  repeat match type of Hstep with
         | context [match ?x with _ => _ end] => destruct x; try discriminate Hstep
         end;
    injection Hstep as <-;
    rewrite ?lookup_insert_ne by done; by rewrite lookup_delete_ne.
Qed.

Lemma relation_loop_other model is_created fields data data' key :
  Forall (fun field => key <> field.1.1.1 /\ key <> field.1.1.2) fields ->
  relation_loop model is_created fields data = Ok data' ->
  data' !! key = data !! key.
Proof.
  intros Hfields. revert data.
  induction Hfields as [|[[[attr column] cls] allow] rest [Hattr Hcolumn] _ IH];
    intros data; cbn [relation_loop].
  - by intros [= <-].
  - destruct (relation_step model is_created data (attr, column, cls, allow))
      as [data1|e] eqn:Hstep; cbn [bind]; [|done].
    intros Hloop. rewrite (IH _ Hloop). simpl in Hattr, Hcolumn.
    exact (relation_step_other _ _ _ _ _ _ _ _ _ Hattr Hcolumn Hstep).
Qed.

(** The admin form. When [on_model_change] attaches a variation (the submitted
    instance, or the stored row of the submitted id) and returns, the
    [data] it leaves for the model holds the variation's id and the
    cabinet, cabinet-colour and design-colour ids of that variation,
    whatever the form carried under those keys; the bundle the data is
    assigned to then has the variation's ids. *)
Lemma on_model_change_copies_variation
    (data : gmap string form_value) (model : Matcher.Bundle) (is_created : bool)
    (combinations : list Registry.CarcassDesignCombination)
    (combo : Registry.CarcassDesignCombination) (data' : gmap string form_value) :
  resolve_combination (default FNone (data !! "carcass_design_combination")) combinations
  = Ok (Some combo) ->
  on_model_change data model is_created combinations = Ok data' ->
  (data' !! "carcass_design_combination_id" = Some (FInt (Registry.id combo))
   /\ data' !! "carcass_id" = Some (FInt (Registry.carcass_id combo))
   /\ data' !! "carcass_color_id" = Some (FInt (Registry.carcass_color_id combo))
   /\ data' !! "design_color_id" = Some (FInt (Registry.design_color_id combo)))
  /\ (let bundle := assign_ids data' model in
      Matcher.carcass_design_combination_id bundle = Some (Registry.id combo)
      /\ Matcher.carcass_id bundle = Registry.carcass_id combo
      /\ Matcher.carcass_color_id bundle = Registry.carcass_color_id combo
      /\ Matcher.design_color_id bundle = Registry.design_color_id combo).
Proof.
  intros Hcombo Hchange. unfold on_model_change, pop in Hchange.
  rewrite Hcombo in Hchange. cbn [bind] in Hchange.
  assert (forall key,
            Forall (fun field => key <> field.1.1.1 /\ key <> field.1.1.2)
                   relation_fields ->
            data' !! key
            = copy_combination combo (delete "carcass_design_combination" data) !! key)
    as Hkeep.
  { intros key Hkey. exact (relation_loop_other _ _ _ _ _ _ Hkey Hchange). }
  assert (data' !! "carcass_design_combination_id" = Some (FInt (Registry.id combo))
          /\ data' !! "carcass_id" = Some (FInt (Registry.carcass_id combo))
          /\ data' !! "carcass_color_id" = Some (FInt (Registry.carcass_color_id combo))
          /\ data' !! "design_color_id" = Some (FInt (Registry.design_color_id combo)))
    as (H1 & H2 & H3 & H4).
  { repeat split; rewrite Hkeep by (repeat constructor; done);
      unfold copy_combination;
      rewrite ?lookup_insert_ne by done; by rewrite lookup_insert_eq. }
  split; [done|]. unfold assign_ids, nullable_id, required_id. simpl.
  by rewrite H1, H2, H3, H4.
Qed.

End BundleAdminFacts.

(** ** Ordered dictionaries *)

Section DictFacts.
Import Py.
Context {V : Type}.

Lemma dict_get_set_eq (key : string) (v : V) (d : dict V) :
  dict_get key (dict_set key v d) = Some v.
Proof.
  unfold dict_get. induction d as [|[k x] rest IH]; simpl.
  - by rewrite String.eqb_refl.
  - destruct (String.eqb k key) eqn:E; simpl; by rewrite E.
Qed.

Lemma dict_get_set_ne (key key' : string) (v : V) (d : dict V) :
  key <> key' -> dict_get key (dict_set key' v d) = dict_get key d.
Proof.
  intros Hne. unfold dict_get. induction d as [|[k x] rest IH]; simpl.
  - apply not_eq_sym, String.eqb_neq in Hne. by rewrite Hne.
  - destruct (String.eqb k key') eqn:E; simpl.
    + apply String.eqb_eq in E. subst k.
      apply not_eq_sym, String.eqb_neq in Hne. by rewrite Hne.
    + destruct (String.eqb k key); [done|exact IH].
Qed.

Lemma assign_all_absent (pairs : list (string * V)) (d : dict V) (key : string) :
  key ∉ map fst pairs ->
  dict_get key (foldl assign d pairs) = dict_get key d.
Proof.
  revert d. induction pairs as [|[k x] rest IH]; intros d Hnot; [done|].
  simpl in Hnot. apply not_elem_of_cons in Hnot as [Hk Hrest].
  simpl. rewrite IH by done. unfold assign. simpl. by apply dict_get_set_ne.
Qed.

Lemma assign_all_present (pairs : list (string * V)) (d : dict V)
    (i : nat) (key : string) (v : V) :
  NoDup (map fst pairs) ->
  pairs !! i = Some (key, v) ->
  dict_get key (foldl assign d pairs) = Some v.
Proof.
  revert d i. induction pairs as [|[k x] rest IH]; intros d i Hnd Hi; [done|].
  simpl in Hnd. apply NoDup_cons in Hnd as [Hk Hrest].
  destruct i as [|i]; simpl in Hi |- *.
  - injection Hi as -> ->. rewrite assign_all_absent by done.
    apply dict_get_set_eq.
  - by apply (IH _ i).
Qed.

End DictFacts.

(** ** Spreadsheet rows *)

Section ExcelFacts.
Import Py Excel.
Context `{RT : Runtime}.

Lemma zip_keys_subset (headers : list string) (values : list val) (key : string) :
  key ∈ map fst (zip headers values) -> key ∈ headers.
Proof.
  revert values. induction headers as [|h hs IH]; intros [|v vs]; simpl; try done.
  - intros Hin. by apply elem_of_nil in Hin.
  - intros Hin. apply elem_of_cons in Hin as [->|Hin]; apply elem_of_cons; eauto.
Qed.

Lemma zip_keys_NoDup (headers : list string) (values : list val) :
  NoDup headers -> NoDup (map fst (zip headers values)).
Proof.
  revert values. induction headers as [|h hs IH]; intros [|v vs] Hnd; simpl;
    try constructor.
  - apply NoDup_cons in Hnd as [Hh Hhs]. intros Hin. apply Hh.
    by apply zip_keys_subset in Hin.
  - apply NoDup_cons in Hnd as [Hh Hhs]. by apply IH.
Qed.

(** [row_data] pairs headers and cells by position: the k-th header that
    was kept gets the k-th cell of the row, whichever column the header
    stood in. *)
Lemma row_data_by_position (headers : list string) (values : list val)
    (k : nat) (header : string) (cell : val) :
  NoDup headers ->
  headers !! k = Some header ->
  values !! k = Some cell ->
  dict_get header (row_data headers values) = Some cell.
Proof.
  intros Hnd Hh Hv. unfold row_data.
  apply (assign_all_present _ _ k); [by apply zip_keys_NoDup|].
  rewrite lookup_zip_with, Hh. simpl. by rewrite Hv.
Qed.

(** The headers are the trimmed first-row cells that are not empty. *)
Lemma header_row_spec (values : list val) (header : string) :
  header ∈ header_row values
  <-> header <> "" /\ exists cell, cell ∈ values /\ header = _safe_header cell.
Proof.
  unfold header_row. rewrite list_elem_of_In, filter_In, <- list_elem_of_In.
  rewrite negb_true_iff, String.eqb_neq.
  change (header ∈ map _safe_header values) with (header ∈ _safe_header <$> values).
  rewrite list_elem_of_fmap. split.
  - intros [(cell & Heq & Hin) Hne]. split; [done|]. by exists cell.
  - intros [Hne (cell & Hin & Heq)]. split; [|done]. by exists cell.
Qed.

(** Every row [parse_xlsx] returns has a cell that is neither [None]
    nor empty text. *)
Lemma parse_xlsx_skips_empty_rows (sheet : list (list val)) :
  Forall (fun data => has_content data = true) (parse_xlsx sheet).
Proof.
  destruct sheet as [|first rest]; [constructor|]. simpl.
  destruct (header_row first); [constructor|].
  apply Forall_forall. intros data Hin.
  apply list_elem_of_In, filter_In in Hin. tauto.
Qed.

(** C5 on a sheet whose second header cell is empty: the header of the
    third column is paired with the cell of the second column, the one
    beneath the dropped header, and the cell of its own column is lost. *)
Theorem parse_xlsx_shifts_after_empty_header :
  parse_xlsx [ [PyStr "code"; PyNone; PyStr "price"];
               [PyStr "m1"; PyStr "note"; PyInt 100] ]
  = [ [("code", PyStr "m1"); ("price", PyStr "note")] ].
Proof. reflexivity. Qed.

End ExcelFacts.

(** ** Cell conversion and bulk import *)

Section CodecFacts.
Import Py Codec.
Context `{RT : Runtime}.

(** C8 on a null cell: [_convert_value] returns [None] for it before it
    looks at the column, so a text column gets [None] and not the empty
    text; every other value is stringified. *)
Theorem convert_value_text_column (value : val) :
  _convert_value (Some TStr) PyNone = Ok PyNone
  /\ _convert_value (Some TStr) value
     = if is_none value then Ok PyNone else Ok (PyStr (str value)).
Proof. split; [reflexivity|]. by destruct value. Qed.

Lemma clean_raises view items cleaned key value col e :
  (key, value) ∈ items ->
  table_columns view !! key = Some col ->
  _convert_value col value = Raise e ->
  exists e', clean view items cleaned = Raise e'.
Proof.
  intros Hin Hcol Hraise. revert cleaned.
  induction items as [|[k v] rest IH]; intros cleaned.
  - by apply elem_of_nil in Hin.
  - apply elem_of_cons in Hin as [[= <- <-]|Hin]; simpl.
    + rewrite Hcol, Hraise. by exists e.
    + destruct (table_columns view !! k) as [c|]; [|by apply IH].
      destruct (_convert_value c v) as [converted|e']; simpl; [by apply IH|].
      by exists e'.
Qed.

Lemma import_loop_raises view rows session row :
  row ∈ rows ->
  (forall cleaned, exists e, clean view row cleaned = Raise e) ->
  exists e, import_loop view rows session = Raise e.
Proof.
  intros Hin Hrow. revert session.
  induction rows as [|r rest IH]; intros session.
  - by apply elem_of_nil in Hin.
  - apply elem_of_cons in Hin as [<-|Hin]; simpl.
    + unfold import_row. destruct (Hrow []) as [e ->]. by exists e.
    + destruct (import_row view session r) as [session'|e]; simpl; [by apply IH|].
      by exists e.
Qed.

(** An import that raises, for whatever reason, leaves the table as it
    was. *)
Lemma import_rows_atomic view rows stored :
  raises (_import_rows view rows stored).1 = true ->
  (_import_rows view rows stored).2 = stored.
Proof.
  unfold _import_rows. destruct (import_loop _ _ _) as [session|e]; [|done].
  by destruct (flush view session).
Qed.

(** C4. If the conversion of a cell of some row to the type of its
    column raises, [_import_rows] raises and the stored table is what it
    was before the import: the rows before the failing one are not
    applied either. *)
Theorem import_rows_all_or_nothing
    (view : ModelView) (rows : list (dict val)) (stored : table)
    (row : dict val) (key : string) (value : val) (col : column) (e : exn) :
  row ∈ rows ->
  (key, value) ∈ row ->
  table_columns view !! key = Some col ->
  _convert_value col value = Raise e ->
  exists e', _import_rows view rows stored = (Raise e', stored).
Proof.
  intros Hrow Hcell Hcol Hraise.
  destruct (import_loop_raises view rows {| loaded := stored; pending := [] |} row Hrow)
    as [e' He'].
  { intros cleaned. by eapply clean_raises. }
  exists e'. unfold _import_rows. by rewrite He'.
Qed.

End CodecFacts.

(** ** A bulk import of coffee machines *)

Section CodecExamples.
Import Py Codec.

(** The second sheet row has the text abc in the integer column price:
    the update of machine 1 by the first row is not applied. *)
Lemma import_rows_all_or_nothing_witness :
  exists e', @_import_rows reference_runtime machine_view machine_rows machine_table
             = (Raise e', machine_table).
Proof.
  apply (@import_rows_all_or_nothing reference_runtime machine_view machine_rows
           machine_table
           [ ("id", PyNone); ("name", PyStr "Latte"); ("price", PyStr "abc") ]
           "price" (PyStr "abc") (Some TInt) ValueError).
  - apply elem_of_cons. right. apply elem_of_cons. by left.
  - apply elem_of_cons. right. apply elem_of_cons. right. apply elem_of_cons. by left.
  - reflexivity.
  - reflexivity.
Defined.

(** The same sheet with a number in that cell is applied as a whole. *)
Example import_rows_applied :
  (@_import_rows reference_runtime machine_view
     [ [ ("id", PyInt 1); ("name", PyStr "Espresso"); ("price", PyInt 120) ];
       [ ("id", PyNone); ("name", PyStr "Latte"); ("price", PyStr "90") ] ]
     machine_table)
  = (Ok tt,
     {[ 1 := {[ "id" := PyInt 1; "name" := PyStr "Espresso"; "price" := PyInt 120 ]};
        2 := {[ "id" := PyInt 2; "name" := PyStr "Latte"; "price" := PyInt 90 ]} ]}).
Proof. vm_compute. reflexivity. Qed.

End CodecExamples.

(** ** Bundles written by the bulk import *)

Section BundleImportFacts.
Import Py Codec.

(** C7. The admin form copies the ids of the attached variation into the
    bundle, whatever the form carried under those keys. The bulk import,
    which [BundleAdmin] inherits as well, does not: it sets the variation
    id and the cabinet and colour ids cell by cell. After the sheet with
    the row (id 7, variation 3, cabinet 99), bundle 7 has variation 3
    attached, whose cabinet and colours are 2, 4 and 5, and has cabinet
    99 and the colours 3 and 4 it had before. *)
Theorem bundle_import_sets_ids_cell_by_cell :
  (forall (RT : Runtime) (data : gmap string BundleAdmin.form_value)
          (model : Matcher.Bundle) (is_created : bool)
          (combinations : list Registry.CarcassDesignCombination)
          (combo : Registry.CarcassDesignCombination)
          (data' : gmap string BundleAdmin.form_value),
     BundleAdmin.resolve_combination
       (default BundleAdmin.FNone (data !! "carcass_design_combination")) combinations
     = Ok (Some combo) ->
     BundleAdmin.on_model_change data model is_created combinations = Ok data' ->
     let bundle := BundleAdmin.assign_ids data' model in
     Matcher.carcass_design_combination_id bundle = Some (Registry.id combo)
     /\ Matcher.carcass_id bundle = Registry.carcass_id combo
     /\ Matcher.carcass_color_id bundle = Registry.carcass_color_id combo
     /\ Matcher.design_color_id bundle = Registry.design_color_id combo)
  /\ (let outcome := handle_import_bytes bundle_view bundle_variation_sheet bundle_table in
      let variation := BundleAdmin.example_combination in
      outcome.1 = Ok tt
      /\ stored_attribute outcome.2 7 "carcass_design_combination_id"
         = Some (PyInt (Registry.id variation))
      /\ (stored_attribute outcome.2 7 "carcass_id" = Some (PyInt 99)
          /\ Registry.carcass_id variation = 2)
      /\ (stored_attribute outcome.2 7 "carcass_color_id" = Some (PyInt 3)
          /\ Registry.carcass_color_id variation = 4)
      /\ (stored_attribute outcome.2 7 "design_color_id" = Some (PyInt 4)
          /\ Registry.design_color_id variation = 5)).
Proof.
  split.
  - intros RT data model is_created combinations combo data' Hcombo Hchange.
    exact (proj2 (on_model_change_copies_variation
                    data model is_created combinations combo data' Hcombo Hchange)).
  - vm_compute. repeat split.
Qed.

End BundleImportFacts.

(** ** Separators *)

Section StrFacts.
Import Str.

Lemma append_nil (s : string) : EmptyString +:+ s = s.
Proof. reflexivity. Qed.

Lemma append_cons (c : ascii) (s t : string) : String c s +:+ t = String c (s +:+ t).
Proof. reflexivity. Qed.

Lemma rstrip_char_decompose c s :
  exists n, s = rstrip_char c s +:+ repeat_char c n.
Proof.
  induction s as [|x rest [n IH]]; [by exists O|]. simpl.
  destruct (rstrip_char c rest) as [|y kept] eqn:E.
  - rewrite append_nil in IH. destruct (Ascii.eqb x c) eqn:Hx.
    + apply Ascii.eqb_eq in Hx. subst x. exists (S n).
      rewrite append_nil. simpl. congruence.
    + exists n. rewrite append_cons, append_nil. congruence.
  - exists n. rewrite append_cons. congruence.
Qed.

Lemma rstrip_char_last c s : last_char (rstrip_char c s) <> Some c.
Proof.
  induction s as [|x rest IH]; [done|]. simpl.
  destruct (rstrip_char c rest) as [|y kept] eqn:E.
  - destruct (Ascii.eqb x c) eqn:Hx; [done|]. simpl.
    apply Ascii.eqb_neq in Hx. congruence.
  - exact IH.
Qed.

Lemma startswith_drop_leading c s :
  startswith s (String c (String c EmptyString)) = false ->
  startswith (drop_leading c s) (String c EmptyString) = false.
Proof.
  destruct s as [|x rest]; [done|]. simpl.
  destruct (Ascii.eqb c x) eqn:E.
  - apply Ascii.eqb_eq in E. subst x. rewrite Ascii.eqb_refl. simpl.
    destruct rest as [|y rest']; [done|]. simpl. done.
  - rewrite Ascii.eqb_sym, E. simpl. by rewrite E.
Qed.

Lemma startswith_nil s : startswith s EmptyString = true.
Proof. by destruct s. Qed.

(** The path [_absolute_url] appends: the reference behind one separator. *)
Lemma path_of_reference v :
  (if startswith v "/" then v else "/" +:+ v) = "/" +:+ drop_leading slash v.
Proof.
  destruct v as [|x rest]; [done|].
  cbn [startswith drop_leading]. rewrite startswith_nil, andb_true_r.
  change slash with "/"%char. rewrite (Ascii.eqb_sym x).
  destruct (Ascii.eqb "/" x) eqn:E; [|done].
  apply Ascii.eqb_eq in E. by subst x.
Qed.

End StrFacts.

(** ** Media references *)

Section ProjectorFacts.
Import Str Projector.

(** What [_absolute_url] does with a reference that has a scheme other
    than http or https, and with one that starts with two separators. *)
Lemma absolute_url_changes_other_schemes :
  has_scheme "ftp://cdn.example/a.jpg" = true
  /\ _absolute_url (Some "ftp://cdn.example/a.jpg") "http://shop.example/"
     = Some "http://shop.example/ftp://cdn.example/a.jpg"
  /\ has_scheme "//cdn.example/a.jpg" = false
  /\ _absolute_url (Some "//cdn.example/a.jpg") "http://shop.example/"
     = Some "http://shop.example//cdn.example/a.jpg".
Proof. repeat split. Qed.

(** C9, amended. [_absolute_url] returns an absent or empty reference
    and a reference that starts with http:// or https:// unchanged. Any
    other reference is appended to the base URL without its trailing
    separators, with one separator put in front unless the reference
    already starts with one; that leaves exactly one separator between
    the two unless the reference starts with two. *)
Theorem absolute_url_http_or_joined (value : option string) (base_url : string) :
  (value = None \/ value = Some "" -> _absolute_url value base_url = value)
  /\ (forall v, value = Some v ->
        startswith v "http://" = true \/ startswith v "https://" = true ->
        _absolute_url value base_url = value)
  /\ (forall v, value = Some v ->
        v <> "" -> startswith v "http://" = false -> startswith v "https://" = false ->
        exists n,
          base_url = rstrip_char slash base_url +:+ repeat_char slash n
          /\ last_char (rstrip_char slash base_url) <> Some slash
          /\ _absolute_url value base_url
             = Some (rstrip_char slash base_url +:+ "/" +:+ drop_leading slash v)
          /\ (startswith v "//" = false ->
              startswith (drop_leading slash v) "/" = false)).
Proof.
  split; [|split].
  - by intros [->| ->].
  - intros v -> Hhttp. simpl. unfold absolute.
    destruct (String.eqb v ""); [done|].
    by destruct Hhttp as [-> | ->]; rewrite ?orb_true_r.
  - intros v -> Hne H1 H2.
    destruct (rstrip_char_decompose slash base_url) as [n Hn].
    exists n. split; [exact Hn|]. split; [apply rstrip_char_last|]. split.
    + simpl. unfold absolute. rewrite H1, H2.
      apply String.eqb_neq in Hne. rewrite Hne. cbn [orb].
      by rewrite path_of_reference.
    + apply startswith_drop_leading.
Qed.

(** An https reference is kept, and uploads/a.jpg is put behind the
    base and one separator. *)
Lemma absolute_url_http_or_joined_witness :
  _absolute_url (Some "https://cdn.example/a.jpg") "http://shop.example/"
  = Some "https://cdn.example/a.jpg"
  /\ exists n,
       "http://shop.example/"
       = rstrip_char slash "http://shop.example/" +:+ repeat_char slash n
       /\ last_char (rstrip_char slash "http://shop.example/") <> Some slash
       /\ _absolute_url (Some "uploads/a.jpg") "http://shop.example/"
          = Some (rstrip_char slash "http://shop.example/" +:+ "/"
                    +:+ drop_leading slash "uploads/a.jpg")
       /\ (startswith "uploads/a.jpg" "//" = false ->
           startswith (drop_leading slash "uploads/a.jpg") "/" = false).
Proof.
  split.
  - apply (proj1 (proj2 (absolute_url_http_or_joined
                           (Some "https://cdn.example/a.jpg") "http://shop.example/"))
             "https://cdn.example/a.jpg" eq_refl).
    right. reflexivity.
  - apply (proj2 (proj2 (absolute_url_http_or_joined
                           (Some "uploads/a.jpg") "http://shop.example/"))
             "uploads/a.jpg" eq_refl).
    + discriminate.
    + reflexivity.
    + reflexivity.
Defined.

Example absolute_url_relative :
  _absolute_url (Some "/uploads/a.jpg") "http://shop.example/"
  = Some "http://shop.example/uploads/a.jpg".
Proof. reflexivity. Qed.

End ProjectorFacts.

(** ** Gallery decoding *)

Section GalleryFacts.
Import Py Gallery.
Context `{RT : Runtime}.

(** [parse_gallery] returns the keys of a JSON object. *)
Lemma parse_gallery_object_keys (stored : string) (members : list (string * json float)) :
  Str.strip stored <> "" ->
  json_loads (Str.strip stored) = Some (JObject members) ->
  parse_gallery (GalleryText stored)
  = Ok (List.filter (fun key => negb (String.eqb key "")) (map fst members)).
Proof.
  intros Hne Hloads. unfold parse_gallery.
  apply String.eqb_neq in Hne. rewrite Hne, Hloads. simpl. f_equal.
  clear. induction members as [|[key data] rest IH]; [done|]. simpl.
  destruct (String.eqb key ""); simpl; by rewrite IH.
Qed.

(** An absent value, a blank text and a text that is no JSON give the
    empty list. *)
Lemma parse_gallery_absent_or_malformed (text : string) :
  parse_gallery GalleryNone = Ok []
  /\ (Str.strip text = "" -> parse_gallery (GalleryText text) = Ok [])
  /\ (json_loads (Str.strip text) = None -> parse_gallery (GalleryText text) = Ok []).
Proof.
  split; [done|]. unfold parse_gallery. split.
  - by intros ->.
  - intros ->. by destruct (String.eqb _ _).
Qed.

(** C6 on a stored text that is valid JSON for a number, a boolean or
    null: iterating over the decoded value raises, so [parse_gallery] and
    the projection built on it raise TypeError, where [gallery_urls]
    checks for a list and returns the empty list. *)
Theorem parse_gallery_raises_on_scalar
    (stored : string) (data : json float) (base_url : string) :
  Str.strip stored = stored ->
  stored <> "" ->
  json_loads stored = Some data ->
  is_scalar data = true ->
  parse_gallery (GalleryText stored) = Raise TypeError
  /\ projected_gallery (Some stored) base_url = Raise TypeError
  /\ gallery_urls (Some stored) = Ok [].
Proof.
  intros Hstrip Hne Hloads Hscalar.
  apply String.eqb_neq in Hne.
  assert (parse_gallery (GalleryText stored) = Raise TypeError) as Hparse.
  { unfold parse_gallery. rewrite Hstrip, Hne, Hloads. by destruct data. }
  split; [exact Hparse|]. split.
  - unfold projected_gallery. by rewrite Hparse.
  - unfold gallery_urls. rewrite Hne, Hloads. by destruct data.
Qed.

End GalleryFacts.

(** The stored gallery text 5. *)
Lemma parse_gallery_raises_on_scalar_witness :
  @Gallery.parse_gallery Py.reference_runtime (Gallery.GalleryText "5")
  = Py.Raise Py.TypeError
  /\ @Gallery.projected_gallery Py.reference_runtime (Some "5") "http://shop.example/"
     = Py.Raise Py.TypeError
  /\ @Gallery.gallery_urls Py.reference_runtime (Some "5") = Py.Ok [].
Proof.
  apply (@parse_gallery_raises_on_scalar Py.reference_runtime
           "5" (Py.JInt 5) "http://shop.example/").
  - reflexivity.
  - discriminate.
  - reflexivity.
  - reflexivity.
Defined.

(** ** Variation registry: what every request keeps *)

Section RegistryInvariants.
Import Registry.

Implicit Types (db : Db) (rows : list CarcassDesignCombination).

Lemma injective_on_NoDup {A B} (f : A -> B) (l : list A) (x y : A) :
  NoDup (map f l) -> x ∈ l -> y ∈ l -> f x = f y -> x = y.
Proof.
  induction l as [|z zs IH]; intros Hnd Hx Hy Hf.
  - by apply elem_of_nil in Hx.
  - simpl in Hnd. apply NoDup_cons in Hnd as [Hz Hzs].
    apply elem_of_cons in Hx as [->|Hx]; apply elem_of_cons in Hy as [->|Hy].
    + done.
    + exfalso. apply Hz. rewrite Hf. by apply list_elem_of_fmap_2.
    + exfalso. apply Hz. rewrite <- Hf. by apply list_elem_of_fmap_2.
    + by apply IH.
Qed.

Lemma NoDup_map_filter {A B} (f : A -> B) (p : A -> bool) (l : list A) :
  NoDup (map f l) -> NoDup (map f (List.filter p l)).
Proof.
  induction l as [|z zs IH]; intros Hnd; [done|].
  simpl in Hnd. apply NoDup_cons in Hnd as [Hz Hzs]. simpl.
  destruct (p z); simpl; [|by apply IH].
  apply NoDup_cons. split; [|by apply IH].
  intros Hin. apply Hz. apply list_elem_of_fmap in Hin as (w & Hw & Hin).
  apply list_elem_of_In, filter_In in Hin as [Hin _].
  rewrite Hw. apply list_elem_of_fmap_2. by apply list_elem_of_In.
Qed.

Lemma existing_None_unregistered carcass cc dc db :
  existing carcass cc dc db = None -> ~ registered carcass cc dc db.
Proof.
  intros Hnone Hreg. apply existing_registered in Hreg as [x Hx]. congruence.
Qed.

Lemma handle_triples_unique r db :
  NoDup (map triple (combinations db)) ->
  NoDup (map triple (combinations (handle r db).2)).
Proof.
  intros Hnd.
  destruct r as [a c cc dc main gallery d | a c v | a c v]; simpl.
  - unfold create_variation. destruct (negb _); [done|].
    destruct (carcasses db !! c); [|done].
    destruct (existing c cc dc db) eqn:Hex; [done|].
    destruct (carcass_colors db !! cc), (design_colors db !! dc); try done.
    apply existing_None_unregistered in Hex. rewrite registered_triple in Hex.
    assert (NoDup (map triple (combinations db) ++ [(c, cc, dc)])) as Hnew.
    { apply NoDup_app. split; [done|]. split; [|apply NoDup_singleton].
      intros x Hx Hx'. apply list_elem_of_singleton in Hx'. by subst x. }
    destruct d; simpl; rewrite ?mark_triples, map_app; exact Hnew.
  - unfold set_default_variation. destruct (negb _); [done|].
    destruct (get_combination v db) as [x|]; [|done].
    destruct (carcass_id x =? c); [|done]. simpl. by rewrite mark_triples.
  - unfold delete_variation. destruct (negb _); [done|].
    destruct (get_combination v db) as [x|]; [|done].
    destruct (carcass_id x =? c); [|done]. simpl. by apply NoDup_map_filter.
Qed.

(** X1. The triple (cabinet, cabinet colour, design colour) stays unique
    over any sequence of create, set-default and delete requests. *)
Theorem run_keeps_triples_unique (requests : list Request) (db : Db) :
  NoDup (map triple (combinations db)) ->
  NoDup (map triple (combinations (run requests db).2)).
Proof.
  revert db. induction requests as [|r rest IH]; intros db Hnd; [done|].
  cbn [run]. pose proof (handle_triples_unique r db Hnd) as H1.
  destruct (handle r db) as [response db1]. specialize (IH db1 H1).
  by destruct (run rest db1) as [responses db2].
Qed.

Lemma run_keeps_triples_unique_witness :
  NoDup (map triple (combinations (run example_requests example_db).2)).
Proof.
  apply (run_keeps_triples_unique example_requests example_db). constructor.
Defined.

Lemma defaults_in_filter_le carcass (p : CarcassDesignCombination -> bool) rows :
  (defaults_in carcass (List.filter p rows) <= defaults_in carcass rows)%nat.
Proof.
  unfold defaults_in. induction rows as [|x xs IH]; [done|]. simpl.
  destruct (p x); simpl; destruct ((carcass_id x =? carcass) && is_default x);
    simpl; lia.
Qed.

Lemma handle_default_le r db carcass :
  ids_unique db ->
  (default_count carcass db <= 1)%nat ->
  (default_count carcass (handle r db).2 <= 1)%nat.
Proof.
  intros Hnd Hle. destruct (is_delete r) eqn:Hdel.
  - destruct r as [| |a c v]; try discriminate Hdel. simpl.
    unfold delete_variation. destruct (negb _); [done|].
    destruct (get_combination v db) as [x|]; [|done].
    destruct (carcass_id x =? c); [|done]. simpl. unfold default_count in *. simpl.
    etrans; [apply defaults_in_filter_le|done].
  - rewrite handle_default_count by done. by destruct (sets_default _ _).
Qed.

(** X2. Over any sequence of requests, deletions included, a cabinet never
    has more than one default variation. *)
Theorem run_keeps_one_default (requests : list Request) (db : Db) :
  ids_unique db ->
  (forall carcass, (default_count carcass db <= 1)%nat) ->
  forall carcass, (default_count carcass (run requests db).2 <= 1)%nat.
Proof.
  revert db. induction requests as [|r rest IH]; intros db Hnd Hle carcass.
  - apply Hle.
  - cbn [run]. pose proof (handle_ids_unique r db Hnd) as Hnd1.
    pose proof (fun c => handle_default_le r db c Hnd (Hle c)) as Hle1.
    destruct (handle r db) as [response db1]. cbn [snd] in Hnd1, Hle1.
    specialize (IH db1 Hnd1 Hle1 carcass).
    by destruct (run rest db1) as [responses db2].
Qed.

Lemma run_keeps_one_default_witness :
  (default_count 1
     (run (example_requests ++ [DeleteVariation true 1 1]) example_db).2 <= 1)%nat.
Proof.
  apply (run_keeps_one_default
           (example_requests ++ [DeleteVariation true 1 1]) example_db).
  - constructor.
  - intros carcass. apply le_S, le_n.
Defined.

(** X3. A request that is not answered with one of the three status
    redirects has changed nothing. *)
Theorem rejected_request_changes_nothing (r : Request) (db : Db) :
  accepted "created" (handle r db).1 = false ->
  accepted "updated" (handle r db).1 = false ->
  accepted "deleted" (handle r db).1 = false ->
  (handle r db).2 = db.
Proof.
  destruct r as [a c cc dc main gallery d | a c v | a c v]; simpl.
  - unfold create_variation. destruct (negb _); [done|].
    destruct (carcasses db !! c); [|done].
    destruct (existing c cc dc db); [done|].
    destruct (carcass_colors db !! cc), (design_colors db !! dc); try done.
  - unfold set_default_variation. destruct (negb _); [done|].
    destruct (get_combination v db) as [x|]; [|done].
    by destruct (carcass_id x =? c).
  - unfold delete_variation. destruct (negb _); [done|].
    destruct (get_combination v db) as [x|]; [|done].
    by destruct (carcass_id x =? c).
Qed.

(** A request without an admin session, on the tables after the example
    requests. *)
Lemma rejected_request_changes_nothing_witness :
  (handle (DeleteVariation false 1 1) (run example_requests example_db).2).2
  = (run example_requests example_db).2.
Proof.
  apply (rejected_request_changes_nothing
           (DeleteVariation false 1 1) (run example_requests example_db).2);
    reflexivity.
Defined.

End RegistryInvariants.

(** ** Variation registry: set-default and delete *)

Section RegistryRequests.
Import Registry.

Implicit Types (db : Db) (rows : list CarcassDesignCombination).

Lemma mark_idempotent carcass v rows :
  mark carcass v (mark carcass v rows) = mark carcass v rows.
Proof.
  unfold mark. rewrite map_map. apply map_ext. intros combo.
  destruct (carcass_id combo =? carcass) eqn:E; simpl; by rewrite E.
Qed.

Lemma find_mark carcass v key rows :
  List.find (fun combo => id combo =? key) (mark carcass v rows)
  = (fun combo => if carcass_id combo =? carcass
                  then set_is_default (id combo =? v) combo else combo)
      <$> List.find (fun combo => id combo =? key) rows.
Proof.
  unfold mark. induction rows as [|x xs IH]; [done|]. simpl.
  destruct (carcass_id x =? carcass) eqn:E; simpl;
    destruct (id x =? key) eqn:K; simpl; rewrite ?E; try done; exact IH.
Qed.

(** X4. Setting the same default a second time gives the same answer and
    the same tables as the first time. *)
Theorem set_default_variation_idempotent
    (admin_session : bool) (carcass v : Z) (db : Db) :
  set_default_variation admin_session carcass v
    (set_default_variation admin_session carcass v db).2
  = set_default_variation admin_session carcass v db.
Proof.
  unfold set_default_variation, _ensure_admin.
  destruct admin_session; cbn [negb]; [|done].
  destruct (get_combination v db) as [x|] eqn:Hget; cbn [snd].
  - destruct (carcass_id x =? carcass) eqn:Hx; cbn [snd].
    + unfold get_combination, _set_default_variation in *. simpl.
      rewrite find_mark, Hget. simpl. rewrite Hx. simpl. rewrite Hx.
      unfold with_combinations. simpl. by rewrite mark_idempotent.
    + by rewrite Hget, Hx.
  - by rewrite Hget.
Qed.

Lemma mark_flags carcass v rows combo :
  combo ∈ mark carcass v rows ->
  carcass_id combo = carcass ->
  is_default combo = (id combo =? v).
Proof.
  unfold mark. intros Hin Hc. apply list_elem_of_fmap in Hin as (x & -> & Hin).
  destruct (carcass_id x =? carcass) eqn:E; [done|].
  apply Z.eqb_neq in E. done.
Qed.

(** X5. A set-default request of an administrator is accepted exactly when
    the variation is stored under that cabinet, and then a variation of
    the cabinet is the default if and only if it is the requested one. *)
Theorem set_default_variation_accepts_own (carcass v : Z) (db : Db) :
  ids_unique db ->
  (accepted "updated" (set_default_variation true carcass v db).1 = true
   <-> exists combo, combo ∈ combinations db
                     /\ id combo = v /\ carcass_id combo = carcass)
  /\ (accepted "updated" (set_default_variation true carcass v db).1 = true ->
      forall combo,
        combo ∈ combinations (set_default_variation true carcass v db).2 ->
        carcass_id combo = carcass ->
        is_default combo = (id combo =? v)).
Proof.
  intros Hnd. unfold set_default_variation. simpl.
  destruct (get_combination v db) as [x|] eqn:Hget.
  - apply find_id_Some in Hget as [Hin Hid].
    destruct (carcass_id x =? carcass) eqn:Hx; simpl.
    + apply Z.eqb_eq in Hx. split.
      * split; [|done]. intros _. by exists x.
      * intros _ combo Hc. subst carcass. exact (mark_flags _ _ _ _ Hc).
    + apply Z.eqb_neq in Hx. split; [|done]. split; [done|].
      intros (combo & Hc & Hcid & Hcc). exfalso. apply Hx.
      assert (x = combo) as ->; [|done].
      apply (injective_on_NoDup id (combinations db)); try done. congruence.
  - simpl. split; [|done]. split; [done|].
    intros (combo & Hc & Hcid & Hcc). exfalso.
    unfold get_combination in Hget.
    apply list_elem_of_In in Hc.
    pose proof (find_none _ _ Hget combo Hc) as Hno. simpl in Hno.
    apply Z.eqb_neq in Hno. done.
Qed.

Lemma set_default_variation_accepts_own_witness :
  (accepted "updated"
     (set_default_variation true 1 2 (run example_requests example_db).2).1 = true
   <-> exists combo, combo ∈ combinations (run example_requests example_db).2
                     /\ id combo = 2 /\ carcass_id combo = 1)
  /\ (accepted "updated"
        (set_default_variation true 1 2 (run example_requests example_db).2).1 = true ->
      forall combo,
        combo ∈ combinations
                  (set_default_variation true 1 2 (run example_requests example_db).2).2 ->
        carcass_id combo = 1 ->
        is_default combo = (id combo =? 2)).
Proof.
  apply (set_default_variation_accepts_own 1 2 (run example_requests example_db).2).
  apply run_ids_unique. constructor.
Defined.

Lemma defaults_in_none carcass rows :
  Forall (fun combo => carcass_id combo = carcass -> is_default combo = false) rows ->
  defaults_in carcass rows = 0%nat.
Proof.
  unfold defaults_in. induction 1 as [|x xs Hx _ IH]; [done|]. simpl.
  destruct (carcass_id x =? carcass) eqn:E; simpl; [|done].
  apply Z.eqb_eq in E. by rewrite (Hx E).
Qed.

Lemma defaults_in_cons carcass x rows :
  defaults_in carcass (x :: rows)
  = ((if ((carcass_id x =? carcass)%Z && is_default x)%bool then 1 else 0)
     + defaults_in carcass rows)%nat.
Proof.
  unfold defaults_in. simpl.
  by destruct ((carcass_id x =? carcass) && is_default x).
Qed.

Lemma defaults_in_positive carcass rows combo :
  combo ∈ rows -> carcass_id combo = carcass -> is_default combo = true ->
  (1 <= defaults_in carcass rows)%nat.
Proof.
  induction rows as [|x xs IH]; intros Hin Hc Hd.
  - by apply elem_of_nil in Hin.
  - rewrite defaults_in_cons. apply elem_of_cons in Hin as [->|Hin].
    + apply Z.eqb_eq in Hc. rewrite Hc, Hd. simpl. lia.
    + specialize (IH Hin Hc Hd). lia.
Qed.

Lemma defaults_in_default_member carcass rows combo :
  (defaults_in carcass rows <= 1)%nat ->
  combo ∈ rows -> carcass_id combo = carcass -> is_default combo = true ->
  forall other, other ∈ rows -> carcass_id other = carcass ->
                is_default other = true -> other = combo.
Proof.
  induction rows as [|x xs IH]; intros Hle Hin Hc Hd other Ho Hoc Hod.
  - by apply elem_of_nil in Hin.
  - rewrite defaults_in_cons in Hle.
    destruct ((carcass_id x =? carcass) && is_default x) eqn:Ex.
    + apply elem_of_cons in Hin as [->|Hin]; apply elem_of_cons in Ho as [->|Ho];
        try done.
      * pose proof (defaults_in_positive _ _ _ Ho Hoc Hod). lia.
      * pose proof (defaults_in_positive _ _ _ Hin Hc Hd). lia.
      * pose proof (defaults_in_positive _ _ _ Hin Hc Hd). lia.
    + apply elem_of_cons in Hin as [->|Hin].
      { apply Z.eqb_eq in Hc. by rewrite Hc, Hd in Ex. }
      apply elem_of_cons in Ho as [->|Ho].
      { apply Z.eqb_eq in Hoc. by rewrite Hoc, Hod in Ex. }
      by apply IH.
Qed.

(** X6. An accepted delete removes the variation with that id and nothing
    else, the id no longer resolves, and no other variation is made the
    default: after deleting the default variation of a cabinet the
    cabinet has no default. *)
Theorem delete_variation_removes_one (carcass v : Z) (db : Db) (combo : CarcassDesignCombination) :
  ids_unique db ->
  combo ∈ combinations db ->
  id combo = v ->
  carcass_id combo = carcass ->
  let outcome := delete_variation true carcass v db in
  outcome.1 = RedirectResponse carcass "?variation_status=deleted" 302
  /\ (forall other, other ∈ combinations outcome.2
                    <-> other ∈ combinations db /\ other <> combo)
  /\ get_combination v outcome.2 = None
  /\ (is_default combo = true ->
      (default_count carcass db <= 1)%nat ->
      default_count carcass outcome.2 = 0%nat).
Proof.
  intros Hnd Hin Hid Hc. unfold delete_variation. simpl.
  destruct (get_combination v db) as [x|] eqn:Hget.
  2:{ unfold get_combination in Hget. apply list_elem_of_In in Hin.
      pose proof (find_none _ _ Hget combo Hin) as Hno. simpl in Hno.
      apply Z.eqb_neq in Hno. done. }
  apply find_id_Some in Hget as [Hx Hxid].
  assert (x = combo) as ->.
  { apply (injective_on_NoDup id (combinations db)); try done. congruence. }
  apply Z.eqb_eq in Hc as Hc'. rewrite Hc'. simpl.
  assert (forall other, other ∈ List.filter (fun c => negb (id c =? v)) (combinations db)
                        <-> other ∈ combinations db /\ other <> combo) as Hmem.
  { intros other. rewrite list_elem_of_In, filter_In, <- list_elem_of_In.
    rewrite negb_true_iff, Z.eqb_neq. split.
    - intros [Ho Hne]. split; [done|]. intros ->. done.
    - intros [Ho Hne]. split; [done|]. intros Hoid. apply Hne.
      apply (injective_on_NoDup id (combinations db)); try done. congruence. }
  split; [done|]. split; [exact Hmem|]. split.
  - unfold get_combination. simpl.
    destruct (List.find _ _) as [y|] eqn:Hfind; [|done].
    apply find_id_Some in Hfind as [Hy Hyid]. apply Hmem in Hy as [Hy Hne].
    exfalso. apply Hne. apply (injective_on_NoDup id (combinations db)); try done.
    congruence.
  - intros Hd Hle. unfold default_count in *. simpl.
    apply defaults_in_none, Forall_forall. intros other Ho Hoc.
    apply Hmem in Ho as [Ho Hne].
    destruct (is_default other) eqn:Hod; [|done]. exfalso. apply Hne.
    by apply (defaults_in_default_member carcass (combinations db)).
Qed.

(** Variation 1 is the default of carcass 1 after the example requests. *)
Lemma delete_variation_removes_one_witness :
  exists combo,
    combo ∈ combinations (run example_requests example_db).2
    /\ let outcome := delete_variation true 1 1 (run example_requests example_db).2 in
       outcome.1 = RedirectResponse 1 "?variation_status=deleted" 302
       /\ (forall other, other ∈ combinations outcome.2
                         <-> other ∈ combinations (run example_requests example_db).2
                             /\ other <> combo)
       /\ get_combination 1 outcome.2 = None
       /\ (is_default combo = true ->
           (default_count 1 (run example_requests example_db).2 <= 1)%nat ->
           default_count 1 outcome.2 = 0%nat).
Proof.
  eexists. split; [apply elem_of_cons; left; reflexivity|].
  apply (delete_variation_removes_one 1 1 (run example_requests example_db).2).
  - apply run_ids_unique. constructor.
  - apply elem_of_cons. left. reflexivity.
  - reflexivity.
  - reflexivity.
Defined.

End RegistryRequests.

(** ** Bundle matcher: stored bundles are found *)

Section MatcherLookup.
Import Matcher.

Lemma of_bundle_agrees (b : Bundle) : tuple_agrees (Selections.of_bundle b) b.
Proof.
  unfold tuple_agrees, optional_agrees, Selections.of_bundle. simpl.
  destruct (fridge_id b), (terminal_id b); repeat split; done.
Qed.

(** X7. Querying with the ids of a stored bundle, when they pass the
    validation (each is at least 1), finds an exact bundle with those
    ids, and finds that very bundle when no other stored bundle has the
    same ids. *)
Theorem stored_bundle_is_found (b : Bundle) (bundles : list Bundle) :
  valid (Selections.of_bundle b) = true ->
  b ∈ bundles ->
  exists found,
    found ∈ bundles
    /\ tuple_agrees (Selections.of_bundle b) found
    /\ preview_bundle (Selections.of_bundle b) bundles
       = Answer {| is_exact_bundle := true; bundle_id := Some (id found);
                   r_custom_price := custom_price found;
                   r_ozon_url := ozon_url found |}
    /\ ((forall x, x ∈ bundles -> tuple_agrees (Selections.of_bundle b) x -> x = b) ->
        found = b).
Proof.
  intros Hvalid Hin. unfold preview_bundle. rewrite Hvalid.
  destruct (find_exact (Selections.of_bundle b) bundles) as [found|] eqn:E.
  - destruct (find_exact_Some _ _ _ E) as (before & after & Hsplit & Hf & _).
    assert (found ∈ bundles) as Hfound.
    { rewrite Hsplit. apply elem_of_app. right. apply elem_of_cons. by left. }
    exists found. split; [done|]. split; [done|]. split; [done|].
    intros Huniq. by apply Huniq.
  - exfalso. pose proof (find_exact_None _ _ E) as Hall.
    rewrite Forall_forall in Hall. apply (Hall b Hin), of_bundle_agrees.
Qed.

Lemma stored_bundle_is_found_witness :
  exists found,
    found ∈ [with_flags false false example_bundle]
    /\ tuple_agrees (Selections.of_bundle (with_flags false false example_bundle)) found
    /\ preview_bundle (Selections.of_bundle (with_flags false false example_bundle))
                      [with_flags false false example_bundle]
       = Answer {| is_exact_bundle := true; bundle_id := Some (id found);
                   r_custom_price := custom_price found;
                   r_ozon_url := ozon_url found |}
    /\ ((forall x, x ∈ [with_flags false false example_bundle] ->
                   tuple_agrees (Selections.of_bundle (with_flags false false example_bundle)) x ->
                   x = with_flags false false example_bundle) ->
        found = with_flags false false example_bundle).
Proof.
  apply (stored_bundle_is_found (with_flags false false example_bundle)
           [with_flags false false example_bundle]).
  - reflexivity.
  - apply elem_of_cons. left. reflexivity.
Defined.

End MatcherLookup.

(** ** Bundle mutation: the relation fields *)

Section BundleAdminRelations.
Import Py BundleAdmin.
Context `{RT : Runtime}.

Implicit Types (data : gmap string form_value).

(** The run of [on_model_change], turn by turn. *)
Lemma on_model_change_steps data model is_created combinations data' :
  on_model_change data model is_created combinations = Ok data' ->
  exists combo d0 d1 d2,
    resolve_combination (default FNone (data !! "carcass_design_combination"))
                        combinations = Ok combo
    /\ d0 = match combo with
            | Some c => copy_combination c (delete "carcass_design_combination" data)
            | None => delete "carcass_design_combination" data
            end
    /\ relation_step model is_created d0
         ("coffee_machine", "coffee_machine_id", CoffeeMachine, false) = Ok d1
    /\ relation_step model is_created d1 ("fridge", "fridge_id", Fridge, true) = Ok d2
    /\ relation_step model is_created d2 ("terminal", "terminal_id", Terminal, true)
       = Ok data'.
Proof.
  unfold on_model_change, pop. intros Hchange.
  destruct (resolve_combination _ _) as [combo|e]; cbn [bind] in Hchange; [|done].
  unfold relation_fields in Hchange. cbn [relation_loop] in Hchange.
  destruct (relation_step model is_created _
              ("coffee_machine", "coffee_machine_id", CoffeeMachine, false))
    as [d1|e] eqn:H1; cbn [bind] in Hchange; [|done].
  destruct (relation_step model is_created d1 ("fridge", "fridge_id", Fridge, true))
    as [d2|e] eqn:H2; cbn [bind] in Hchange; [|done].
  destruct (relation_step model is_created d2 ("terminal", "terminal_id", Terminal, true))
    as [d3|e] eqn:H3; cbn [bind] in Hchange; [|done].
  injection Hchange as <-. exists combo. eexists. exists d1, d2.
  repeat split; try reflexivity; assumption.
Qed.

Lemma relation_step_skip model is_created data attr column cls allow data' :
  relation_step model is_created data (attr, column, cls, allow) = Ok data' ->
  forall key, key <> attr -> key <> column -> data' !! key = data !! key.
Proof.
  intros Hstep key Hattr Hcolumn.
  exact (relation_step_other _ _ _ _ _ _ _ _ _ Hattr Hcolumn Hstep).
Qed.

Lemma relation_step_own model is_created data attr column cls allow data' :
  relation_step model is_created data (attr, column, cls, allow) = Ok data' ->
  attr <> column ->
  data' !! attr = None.
Proof.
  unfold relation_step, pop, bind. intros Hstep Hne.
  repeat match type of Hstep with
         | context [match ?x with _ => _ end] => destruct x; try discriminate Hstep
         end;
    injection Hstep as <-;
    rewrite ?lookup_insert_ne by done; by rewrite lookup_delete_eq.
Qed.

Lemma relation_step_empty_allowed model is_created data attr column cls data' :
  is_empty_choice (default FNone (data !! attr)) = true ->
  relation_step model is_created data (attr, column, cls, true) = Ok data' ->
  data' !! column = Some FNone.
Proof.
  unfold relation_step, pop. intros ->. intros [= <-]. by rewrite lookup_insert_eq.
Qed.

Lemma relation_step_instance model is_created data attr column cls allow pk data' :
  data !! attr = Some (FInstance cls pk) ->
  relation_step model is_created data (attr, column, cls, allow) = Ok data' ->
  data' !! column = Some (FInt pk).
Proof.
  unfold relation_step, pop. intros ->. simpl.
  assert (model_class_eqb cls cls = true) as -> by (by destruct cls).
  intros [= <-]. by rewrite lookup_insert_eq.
Qed.

Lemma relation_step_empty_required model is_created data attr column cls data' :
  relation_step model is_created data (attr, column, cls, false) = Ok data' ->
  attr <> column ->
  is_empty_choice (default FNone (data !! attr)) = true ->
  data' !! column
  = match relation_column model column with
    | Some current =>
        if negb is_created && negb (current =? 0) then Some (FInt current)
        else data !! column
    | None => data !! column
    end.
Proof.
  unfold relation_step, pop. intros Hstep Hne Hempty. rewrite Hempty in Hstep.
  revert Hstep. destruct (relation_column model column) as [current|].
  - destruct (negb is_created && negb (current =? 0)); intros [= <-].
    + by rewrite lookup_insert_eq.
    + by rewrite lookup_delete_ne.
  - intros [= <-]. by rewrite lookup_delete_ne.
Qed.

Lemma start_lookup data (combo : option Registry.CarcassDesignCombination) key :
  key ∉ [ "carcass_design_combination"; "carcass_design_combination_id";
          "carcass_id"; "carcass_color_id"; "design_color_id" ] ->
  match combo with
  | Some c => copy_combination c (delete "carcass_design_combination" data)
  | None => delete "carcass_design_combination" data
  end !! key = data !! key.
Proof.
  intros Hkey. repeat (apply not_elem_of_cons in Hkey as [? Hkey]).
  destruct combo as [c|]; unfold copy_combination;
    rewrite ?lookup_insert_ne by done; by rewrite lookup_delete_ne.
Qed.

(** X8. After [on_model_change] the keys of the relation objects are gone
    from the data: only column names are left for the model. *)
Theorem on_model_change_consumes_relations
    data model is_created combinations data' :
  on_model_change data model is_created combinations = Ok data' ->
  data' !! "carcass_design_combination" = None
  /\ data' !! "coffee_machine" = None
  /\ data' !! "fridge" = None
  /\ data' !! "terminal" = None.
Proof.
  intros Hchange.
  destruct (on_model_change_steps _ _ _ _ _ Hchange)
    as (combo & d0 & d1 & d2 & _ & Hd0 & H1 & H2 & H3).
  assert (d0 !! "carcass_design_combination" = None) as H0.
  { subst d0. destruct combo as [c|]; unfold copy_combination;
      rewrite ?lookup_insert_ne by done; by rewrite lookup_delete_eq. }
  repeat split.
  - rewrite (relation_step_skip _ _ _ _ _ _ _ _ H3) by done.
    rewrite (relation_step_skip _ _ _ _ _ _ _ _ H2) by done.
    rewrite (relation_step_skip _ _ _ _ _ _ _ _ H1) by done. done.
  - rewrite (relation_step_skip _ _ _ _ _ _ _ _ H3) by done.
    rewrite (relation_step_skip _ _ _ _ _ _ _ _ H2) by done.
    by apply (relation_step_own _ _ _ _ _ _ _ _ H1).
  - rewrite (relation_step_skip _ _ _ _ _ _ _ _ H3) by done.
    by apply (relation_step_own _ _ _ _ _ _ _ _ H2).
  - by apply (relation_step_own _ _ _ _ _ _ _ _ H3).
Qed.

(** X9. An empty fridge or terminal choice (nothing, empty text or the text
    null) is stored as NULL, so the bundle is one without that part. *)
Theorem on_model_change_clears_optional
    data model is_created combinations data' :
  on_model_change data model is_created combinations = Ok data' ->
  (is_empty_choice (default FNone (data !! "fridge")) = true ->
   data' !! "fridge_id" = Some FNone
   /\ Matcher.fridge_id (assign_ids data' model) = None)
  /\ (is_empty_choice (default FNone (data !! "terminal")) = true ->
      data' !! "terminal_id" = Some FNone
      /\ Matcher.terminal_id (assign_ids data' model) = None).
Proof.
  intros Hchange.
  destruct (on_model_change_steps _ _ _ _ _ Hchange)
    as (combo & d0 & d1 & d2 & _ & Hd0 & H1 & H2 & H3).
  assert (d1 !! "fridge" = data !! "fridge") as Hfridge.
  { rewrite (relation_step_skip _ _ _ _ _ _ _ _ H1) by done.
    subst d0. apply start_lookup. repeat (apply not_elem_of_cons; split; [done|]).
    apply not_elem_of_nil. }
  assert (d2 !! "terminal" = data !! "terminal") as Hterminal.
  { rewrite (relation_step_skip _ _ _ _ _ _ _ _ H2) by done.
    rewrite (relation_step_skip _ _ _ _ _ _ _ _ H1) by done.
    subst d0. apply start_lookup. repeat (apply not_elem_of_cons; split; [done|]).
    apply not_elem_of_nil. }
  split.
  - intros Hempty. rewrite <- Hfridge in Hempty.
    assert (data' !! "fridge_id" = Some FNone) as Hf.
    { rewrite (relation_step_skip _ _ _ _ _ _ _ _ H3) by done.
      exact (relation_step_empty_allowed _ _ _ _ _ _ _ Hempty H2). }
    split; [done|]. unfold assign_ids, nullable_id. simpl. by rewrite Hf.
  - intros Hempty. rewrite <- Hterminal in Hempty.
    assert (data' !! "terminal_id" = Some FNone) as Ht
      by exact (relation_step_empty_allowed _ _ _ _ _ _ _ Hempty H3).
    split; [done|]. unfold assign_ids, nullable_id. simpl. by rewrite Ht.
Qed.

(** X10. When the form attaches no variation, the cabinet, colour and
    variation ids in the data are left as they were submitted. *)
Theorem on_model_change_without_variation
    data model is_created combinations data' :
  resolve_combination (default FNone (data !! "carcass_design_combination")) combinations
  = Ok None ->
  on_model_change data model is_created combinations = Ok data' ->
  data' !! "carcass_design_combination_id" = data !! "carcass_design_combination_id"
  /\ data' !! "carcass_id" = data !! "carcass_id"
  /\ data' !! "carcass_color_id" = data !! "carcass_color_id"
  /\ data' !! "design_color_id" = data !! "design_color_id".
Proof.
  intros Hnone Hchange. unfold on_model_change, pop in Hchange.
  rewrite Hnone in Hchange. cbn [bind] in Hchange.
  repeat split;
    (etrans; [eapply relation_loop_other; [|exact Hchange]; repeat constructor; done|]);
    by rewrite lookup_delete_ne.
Qed.

(** X11. The machine of a bundle: a submitted machine instance sets its id;
    an empty choice on an update keeps the machine the bundle has, and on
    a create leaves the column as submitted. *)
Theorem on_model_change_machine
    data model is_created combinations data' :
  on_model_change data model is_created combinations = Ok data' ->
  (forall pk, data !! "coffee_machine" = Some (FInstance CoffeeMachine pk) ->
              data' !! "coffee_machine_id" = Some (FInt pk))
  /\ (is_empty_choice (default FNone (data !! "coffee_machine")) = true ->
      data' !! "coffee_machine_id"
      = if negb is_created && negb (Matcher.coffee_machine_id model =? 0)
        then Some (FInt (Matcher.coffee_machine_id model))
        else data !! "coffee_machine_id").
Proof.
  intros Hchange.
  destruct (on_model_change_steps _ _ _ _ _ Hchange)
    as (combo & d0 & d1 & d2 & _ & Hd0 & H1 & H2 & H3).
  assert (forall key, key = "coffee_machine" \/ key = "coffee_machine_id" ->
                      d0 !! key = data !! key) as Hstart.
  { intros key Hkey. subst d0. apply start_lookup.
    destruct Hkey as [-> | ->];
      repeat (apply not_elem_of_cons; split; [done|]); apply not_elem_of_nil. }
  assert (data' !! "coffee_machine_id" = d1 !! "coffee_machine_id") as Hlater.
  { rewrite (relation_step_skip _ _ _ _ _ _ _ _ H3) by done.
    rewrite (relation_step_skip _ _ _ _ _ _ _ _ H2) by done. done. }
  rewrite Hlater. split.
  - intros pk Hpk. rewrite <- Hstart in Hpk by (by left).
    exact (relation_step_instance _ _ _ _ _ _ _ _ _ Hpk H1).
  - intros Hempty. rewrite <- Hstart in Hempty by (by left).
    rewrite (relation_step_empty_required _ _ _ _ _ _ _ H1) by done.
    simpl. rewrite Hstart by (by right). done.
Qed.

Lemma find_exact_member q bundles b :
  b ∈ bundles -> Matcher.tuple_agrees q b ->
  exists found,
    Matcher.find_exact q bundles = Some found
    /\ found ∈ bundles
    /\ Matcher.tuple_agrees q found.
Proof.
  intros Hin Hagree.
  destruct (Matcher.find_exact q bundles) as [found|] eqn:E.
  - destruct (find_exact_Some _ _ _ E) as (before & after & Hsplit & Hf & _).
    exists found. split; [done|]. split; [|done].
    rewrite Hsplit. apply elem_of_app. right. apply elem_of_cons. by left.
  - exfalso. pose proof (find_exact_None _ _ E) as Hall.
    rewrite Forall_forall in Hall. by apply (Hall b Hin).
Qed.

(** X12. A bundle saved from the admin form with a variation, a machine and
    an empty fridge and terminal is an exact match of the query a
    configurator sends for that variation and machine (whose ids, being
    keys of stored rows, pass the validation of the endpoint). *)
Theorem saved_bundle_is_previewed
    data model is_created combinations combo pk data' bundles :
  Matcher.valid (Selections.of_variation pk combo) = true ->
  resolve_combination (default FNone (data !! "carcass_design_combination")) combinations
  = Ok (Some combo) ->
  data !! "coffee_machine" = Some (FInstance CoffeeMachine pk) ->
  is_empty_choice (default FNone (data !! "fridge")) = true ->
  is_empty_choice (default FNone (data !! "terminal")) = true ->
  on_model_change data model is_created combinations = Ok data' ->
  assign_ids data' model ∈ bundles ->
  Matcher.tuple_agrees (Selections.of_variation pk combo) (assign_ids data' model)
  /\ exists found,
       found ∈ bundles
       /\ Matcher.tuple_agrees (Selections.of_variation pk combo) found
       /\ Matcher.preview_bundle (Selections.of_variation pk combo) bundles
          = Matcher.Answer
              {| Matcher.is_exact_bundle := true;
                 Matcher.bundle_id := Some (Matcher.id found);
                 Matcher.r_custom_price := Matcher.custom_price found;
                 Matcher.r_ozon_url := Matcher.ozon_url found |}.
Proof.
  intros Hvalid Hcombo Hmachine Hfridge Hterminal Hchange Hin.
  destruct (on_model_change_steps _ _ _ _ _ Hchange)
    as (combo' & d0 & d1 & d2 & Hresolve & Hd0 & H1 & H2 & H3).
  rewrite Hcombo in Hresolve. injection Hresolve as <-.
  assert (forall key, key ∉ [ "carcass_design_combination";
                              "carcass_design_combination_id"; "carcass_id";
                              "carcass_color_id"; "design_color_id" ] ->
                      d0 !! key = data !! key) as Hstart.
  { intros key Hkey. subst d0. by apply (start_lookup data (Some combo)). }
  assert (data' !! "coffee_machine_id" = Some (FInt pk)) as Em.
  { rewrite (relation_step_skip _ _ _ _ _ _ _ _ H3) by done.
    rewrite (relation_step_skip _ _ _ _ _ _ _ _ H2) by done.
    apply (fun He => relation_step_instance _ _ _ _ _ _ _ _ _ He H1).
    rewrite Hstart by (repeat (apply not_elem_of_cons; split; [done|]);
                       apply not_elem_of_nil).
    exact Hmachine. }
  assert (data' !! "fridge_id" = Some FNone) as Ef.
  { rewrite (relation_step_skip _ _ _ _ _ _ _ _ H3) by done.
    apply (fun He => relation_step_empty_allowed _ _ _ _ _ _ _ He H2).
    rewrite (relation_step_skip _ _ _ _ _ _ _ _ H1) by done.
    rewrite Hstart by (repeat (apply not_elem_of_cons; split; [done|]);
                       apply not_elem_of_nil).
    exact Hfridge. }
  assert (data' !! "terminal_id" = Some FNone) as Et.
  { apply (fun He => relation_step_empty_allowed _ _ _ _ _ _ _ He H3).
    rewrite (relation_step_skip _ _ _ _ _ _ _ _ H2) by done.
    rewrite (relation_step_skip _ _ _ _ _ _ _ _ H1) by done.
    rewrite Hstart by (repeat (apply not_elem_of_cons; split; [done|]);
                       apply not_elem_of_nil).
    exact Hterminal. }
  assert (data' !! "carcass_design_combination_id" = Some (FInt (Registry.id combo))
          /\ data' !! "carcass_id" = Some (FInt (Registry.carcass_id combo))
          /\ data' !! "carcass_color_id" = Some (FInt (Registry.carcass_color_id combo))
          /\ data' !! "design_color_id" = Some (FInt (Registry.design_color_id combo)))
    as (Ev & Ec & Ecc & Edc).
  { repeat split;
      rewrite (relation_step_skip _ _ _ _ _ _ _ _ H3) by done;
      rewrite (relation_step_skip _ _ _ _ _ _ _ _ H2) by done;
      rewrite (relation_step_skip _ _ _ _ _ _ _ _ H1) by done;
      subst d0; unfold copy_combination;
      rewrite ?lookup_insert_ne by done; by rewrite lookup_insert_eq. }
  assert (Matcher.tuple_agrees (Selections.of_variation pk combo) (assign_ids data' model))
    as Hagree.
  { unfold Matcher.tuple_agrees, Matcher.optional_agrees, Selections.of_variation,
      assign_ids, required_id, nullable_id. simpl.
    rewrite Em, Ef, Et, Ev, Ec, Ecc, Edc. repeat split; done. }
  split; [done|].
  destruct (find_exact_member _ _ _ Hin Hagree) as (found & Hfind & Hfound & Hf).
  exists found. split; [done|]. split; [done|].
  unfold Matcher.preview_bundle. by rewrite Hvalid, Hfind.
Qed.

End BundleAdminRelations.

(** The example form is accepted, with the variation, without it and
    without a machine. *)
Lemma example_forms_accepted :
  Py.raises (@BundleAdmin.on_model_change Py.reference_runtime BundleAdmin.example_form
               Matcher.example_bundle false [BundleAdmin.example_combination]) = false
  /\ Py.raises (@BundleAdmin.on_model_change Py.reference_runtime
                  BundleAdmin.example_form_no_variation
                  Matcher.example_bundle false [BundleAdmin.example_combination]) = false
  /\ Py.raises (@BundleAdmin.on_model_change Py.reference_runtime
                  BundleAdmin.example_form_no_machine
                  Matcher.example_bundle false [BundleAdmin.example_combination]) = false.
Proof. vm_compute. repeat split. Qed.

(** The form with variation 3, machine 1 and an empty fridge. *)
Lemma on_model_change_consumes_relations_witness :
  exists data',
    @BundleAdmin.on_model_change Py.reference_runtime BundleAdmin.example_form
       Matcher.example_bundle false [BundleAdmin.example_combination]
    = Py.Ok data'
    /\ data' !! "carcass_design_combination" = None
    /\ data' !! "coffee_machine" = None
    /\ data' !! "fridge" = None
    /\ data' !! "terminal" = None.
Proof.
  pose proof (proj1 example_forms_accepted) as Hok.
  destruct (@BundleAdmin.on_model_change Py.reference_runtime BundleAdmin.example_form
              Matcher.example_bundle false [BundleAdmin.example_combination])
    as [data'|e] eqn:E; [|discriminate Hok].
  exists data'. split; [reflexivity|].
  exact (@on_model_change_consumes_relations Py.reference_runtime
           BundleAdmin.example_form Matcher.example_bundle false
           [BundleAdmin.example_combination] data' E).
Defined.

Lemma on_model_change_clears_optional_witness :
  exists data',
    @BundleAdmin.on_model_change Py.reference_runtime BundleAdmin.example_form
       Matcher.example_bundle false [BundleAdmin.example_combination]
    = Py.Ok data'
    /\ BundleAdmin.is_empty_choice
         (default BundleAdmin.FNone (BundleAdmin.example_form !! "fridge")) = true
    /\ data' !! "fridge_id" = Some BundleAdmin.FNone
    /\ Matcher.fridge_id (BundleAdmin.assign_ids data' Matcher.example_bundle) = None.
Proof.
  pose proof (proj1 example_forms_accepted) as Hok.
  destruct (@BundleAdmin.on_model_change Py.reference_runtime BundleAdmin.example_form
              Matcher.example_bundle false [BundleAdmin.example_combination])
    as [data'|e] eqn:E; [|discriminate Hok].
  exists data'. split; [reflexivity|].
  assert (BundleAdmin.is_empty_choice
            (default BundleAdmin.FNone (BundleAdmin.example_form !! "fridge")) = true)
    as Hempty by (vm_compute; reflexivity).
  split; [exact Hempty|].
  exact (proj1 (@on_model_change_clears_optional Py.reference_runtime
                  BundleAdmin.example_form Matcher.example_bundle false
                  [BundleAdmin.example_combination] data' E) Hempty).
Defined.

Lemma on_model_change_without_variation_witness :
  exists data',
    @BundleAdmin.on_model_change Py.reference_runtime
       BundleAdmin.example_form_no_variation
       Matcher.example_bundle false [BundleAdmin.example_combination]
    = Py.Ok data'
    /\ data' !! "carcass_design_combination_id" = None
    /\ data' !! "carcass_id" = Some (BundleAdmin.FInt 99)
    /\ data' !! "carcass_color_id" = None
    /\ data' !! "design_color_id" = None.
Proof.
  pose proof (proj1 (proj2 example_forms_accepted)) as Hok.
  destruct (@BundleAdmin.on_model_change Py.reference_runtime
              BundleAdmin.example_form_no_variation
              Matcher.example_bundle false [BundleAdmin.example_combination])
    as [data'|e] eqn:E; [|discriminate Hok].
  exists data'. split; [reflexivity|].
  assert (@BundleAdmin.resolve_combination Py.reference_runtime
            (default BundleAdmin.FNone
               (BundleAdmin.example_form_no_variation !! "carcass_design_combination"))
            [BundleAdmin.example_combination] = Py.Ok None)
    as Hnone by (vm_compute; reflexivity).
  destruct (@on_model_change_without_variation Py.reference_runtime
              BundleAdmin.example_form_no_variation
              Matcher.example_bundle false [BundleAdmin.example_combination] data'
              Hnone E)
    as (-> & -> & -> & ->).
  vm_compute. repeat split.
Defined.

Lemma on_model_change_machine_witness :
  exists data',
    @BundleAdmin.on_model_change Py.reference_runtime
       BundleAdmin.example_form_no_machine
       Matcher.example_bundle false [BundleAdmin.example_combination]
    = Py.Ok data'
    /\ data' !! "coffee_machine_id"
       = Some (BundleAdmin.FInt (Matcher.coffee_machine_id Matcher.example_bundle)).
Proof.
  pose proof (proj2 (proj2 example_forms_accepted)) as Hok.
  destruct (@BundleAdmin.on_model_change Py.reference_runtime
              BundleAdmin.example_form_no_machine
              Matcher.example_bundle false [BundleAdmin.example_combination])
    as [data'|e] eqn:E; [|discriminate Hok].
  exists data'. split; [reflexivity|].
  assert (BundleAdmin.is_empty_choice
            (default BundleAdmin.FNone
               (BundleAdmin.example_form_no_machine !! "coffee_machine")) = true)
    as Hempty by (vm_compute; reflexivity).
  rewrite (proj2 (@on_model_change_machine Py.reference_runtime
                    BundleAdmin.example_form_no_machine
                    Matcher.example_bundle false [BundleAdmin.example_combination]
                    data' E) Hempty).
  vm_compute. reflexivity.
Defined.

Lemma saved_bundle_is_previewed_witness :
  exists data' response,
    @BundleAdmin.on_model_change Py.reference_runtime BundleAdmin.example_form
       Matcher.example_bundle false [BundleAdmin.example_combination]
    = Py.Ok data'
    /\ Matcher.preview_bundle
         (Selections.of_variation 1 BundleAdmin.example_combination)
         [BundleAdmin.assign_ids data' Matcher.example_bundle]
       = Matcher.Answer response
    /\ Matcher.is_exact_bundle response = true.
Proof.
  pose proof (proj1 example_forms_accepted) as Hok.
  destruct (@BundleAdmin.on_model_change Py.reference_runtime BundleAdmin.example_form
              Matcher.example_bundle false [BundleAdmin.example_combination])
    as [data'|e] eqn:E; [|discriminate Hok].
  assert (Matcher.valid (Selections.of_variation 1 BundleAdmin.example_combination)
          = true) as Hvalid by reflexivity.
  assert (@BundleAdmin.resolve_combination Py.reference_runtime
            (default BundleAdmin.FNone
               (BundleAdmin.example_form !! "carcass_design_combination"))
            [BundleAdmin.example_combination]
          = Py.Ok (Some BundleAdmin.example_combination))
    as Hcombo by (vm_compute; reflexivity).
  assert (BundleAdmin.example_form !! "coffee_machine"
          = Some (BundleAdmin.FInstance BundleAdmin.CoffeeMachine 1))
    as Hmachine by (vm_compute; reflexivity).
  assert (BundleAdmin.is_empty_choice
            (default BundleAdmin.FNone (BundleAdmin.example_form !! "fridge")) = true)
    as Hfridge by (vm_compute; reflexivity).
  assert (BundleAdmin.is_empty_choice
            (default BundleAdmin.FNone (BundleAdmin.example_form !! "terminal")) = true)
    as Hterminal by (vm_compute; reflexivity).
  assert (BundleAdmin.assign_ids data' Matcher.example_bundle
          ∈ [BundleAdmin.assign_ids data' Matcher.example_bundle])
    as Hin by (apply elem_of_cons; left; reflexivity).
  destruct (@saved_bundle_is_previewed Py.reference_runtime
              BundleAdmin.example_form Matcher.example_bundle false
              [BundleAdmin.example_combination] BundleAdmin.example_combination 1
              data' [BundleAdmin.assign_ids data' Matcher.example_bundle]
              Hvalid Hcombo Hmachine Hfridge Hterminal E Hin)
    as (_ & found & _ & _ & Hreply).
  exists data'. eexists. split; [reflexivity|]. split; [exact Hreply|reflexivity].
Defined.

(** ** Bulk import: what a sheet can and cannot change *)

Section CodecImport.
Import Py Codec.
Context `{RT : Runtime}.

(** X13. A value converted for a bool, int, float or text column is of that
    type, or is [None]; and it is [None] only for an empty cell or, in
    an int column, a blank text. *)
Theorem convert_value_typed (t : python_type) (value converted : val) :
  t ∈ [TBool; TInt; TFloat; TStr] ->
  _convert_value (Some t) value = Ok converted ->
  (converted = PyNone
   /\ (value = PyNone
       \/ (t = TInt /\ exists s, value = PyStr s /\ Str.strip s = "")))
  \/ (value <> PyNone /\ instance_of t converted = true).
Proof.
  intros Ht Hconv.
  destruct value as [|b|n|x|s|o];
    [left; injection Hconv as <-; by split; [|left]|..];
    repeat (apply elem_of_cons in Ht as [-> | Ht]);
    try (by apply elem_of_nil in Ht);
    cbv beta iota delta [_convert_value is_none bind] in Hconv;
    repeat match type of Hconv with
           | context [match ?r with _ => _ end] =>
               destruct r eqn:?; try discriminate Hconv
           end;
    injection Hconv as <-;
    first [ right; split; [done|reflexivity]
          | left; split; [done|]; right; split; [done|];
            eexists; split; [done|]; by apply String.eqb_eq ].
Qed.

Lemma clean_filter view items cleaned :
  clean view (List.filter (in_table view) items) cleaned = clean view items cleaned.
Proof.
  revert cleaned. induction items as [|[key value] rest IH]; intros cleaned; [done|].
  cbn [List.filter clean]. unfold in_table at 1. cbn [fst].
  destruct (table_columns view !! key) as [col|] eqn:E.
  - rewrite bool_decide_eq_true_2 by eauto. cbn [clean]. rewrite E.
    destruct (_convert_value col value) as [converted|e]; cbn [bind]; [apply IH|done].
  - rewrite bool_decide_eq_false_2 by (by intros [? ?]). apply IH.
Qed.

Lemma import_loop_filter view rows session :
  import_loop view (map (List.filter (in_table view)) rows) session
  = import_loop view rows session.
Proof.
  revert session. induction rows as [|row rest IH]; intros session; [done|].
  cbn [map import_loop]. unfold import_row. rewrite clean_filter.
  destruct (bind (clean view row []) _) as [session'|e]; cbn [bind]; [apply IH|done].
Qed.

(** X14. Cells under a header that names no column of the model take no part
    in an import: the outcome and the stored table are those of the sheet
    without these cells. *)
Theorem import_ignores_unknown_headers view rows stored :
  _import_rows view (map (List.filter (in_table view)) rows) stored
  = _import_rows view rows stored.
Proof. unfold _import_rows. by rewrite import_loop_filter. Qed.

Lemma dict_set_keys {V} (key key' : string) (v : V) (d : dict V) :
  key' ∈ map fst (dict_set key v d) -> key' = key \/ key' ∈ map fst d.
Proof.
  induction d as [|[k x] rest IH]; cbn [dict_set map fst].
  - intros Hin. apply elem_of_cons in Hin as [->|Hin]; [by left|by right].
  - destruct (String.eqb k key) eqn:E; cbn [map fst]; intros Hin.
    + by right.
    + apply elem_of_cons in Hin as [->|Hin].
      * right. apply elem_of_cons. by left.
      * destruct (IH Hin) as [->|Hrest]; [by left|].
        right. apply elem_of_cons. by right.
Qed.

Lemma clean_keys view items cleaned result key :
  clean view items cleaned = Ok result ->
  key ∈ map fst result ->
  key ∈ map fst items \/ key ∈ map fst cleaned.
Proof.
  revert cleaned. induction items as [|[k v] rest IH]; intros cleaned; cbn [clean].
  - intros [= <-]. by right.
  - intros Hclean Hkey. cbn [map fst].
    destruct (table_columns view !! k) as [col|].
    + destruct (_convert_value col v) as [converted|e]; cbn [bind] in Hclean; [|done].
      destruct (IH _ Hclean Hkey) as [Hrest|Hset].
      * left. apply elem_of_cons. by right.
      * destruct (dict_set_keys _ _ _ _ Hset) as [->|Hold]; [|by right].
        left. apply elem_of_cons. by left.
    + destruct (IH _ Hclean Hkey) as [Hrest|Hold]; [|by right].
      left. apply elem_of_cons. by right.
Qed.

Lemma dict_remove_keys {V} (key key' : string) (d : dict V) :
  key' ∈ map fst (dict_remove key d) -> key' ∈ map fst d.
Proof.
  unfold dict_remove. induction d as [|[k x] rest IH]; cbn [List.filter map fst]; [done|].
  destruct (negb (String.eqb k key)); cbn [map fst]; intros Hin.
  - apply elem_of_cons in Hin as [->|Hin]; apply elem_of_cons; [by left|right; by apply IH].
  - apply elem_of_cons. right. by apply IH.
Qed.

Lemma set_attributes_other (obj : record) (cleaned : dict val) (field : string) :
  field ∉ map fst cleaned -> set_attributes obj cleaned !! field = obj !! field.
Proof.
  unfold set_attributes. revert obj.
  induction cleaned as [|[k v] rest IH]; intros obj Hnot; [done|].
  cbn [map fst] in Hnot. apply not_elem_of_cons in Hnot as [Hk Hrest].
  cbn [foldl fst snd]. rewrite IH by done. by apply (lookup_insert_ne (M:=gmap string)).
Qed.

Lemma session_get_Some session pk_value key obj :
  session_get session pk_value = Some (key, obj) -> loaded session !! key = Some obj.
Proof.
  unfold session_get. destruct pk_value; try done.
  destruct (loaded session !! n) as [o|] eqn:E; [|done].
  cbn. by intros [= <- <-].
Qed.

Lemma import_row_keeps view session row session' key obj :
  import_row view session row = Ok session' ->
  loaded session !! key = Some obj ->
  exists obj',
    loaded session' !! key = Some obj'
    /\ forall field, field ∉ map fst row -> obj' !! field = obj !! field.
Proof.
  unfold import_row. intros Hrow Hkey.
  destruct (clean view row []) as [cleaned|e] eqn:Hclean; cbn [bind] in Hrow; [|done].
  destruct cleaned as [|item cleaned'] eqn:Hc; [injection Hrow as <-; by exists obj|].
  rewrite <- Hc in *. clear Hc item cleaned'.
  destruct (if not_blank _ then _ else None) as [[k o]|] eqn:Hget in Hrow;
    injection Hrow as <-; cbn [loaded]; [|by exists obj].
  assert (loaded session !! k = Some o) as Hk.
  { destruct (not_blank _); [|done]. by eapply session_get_Some. }
  destruct (decide (k = key)) as [->|Hne].
  - eexists. split; [by apply (lookup_insert_eq (M:=gmap Z))|].
    intros field Hfield. rewrite Hk in Hkey. injection Hkey as ->.
    apply set_attributes_other. intros Hin. apply Hfield.
    apply dict_remove_keys in Hin.
    destruct (clean_keys _ _ _ _ _ Hclean Hin) as [?|Hnil]; [done|].
    by apply elem_of_nil in Hnil.
  - exists obj. split; [|done]. unfold table in *. by rewrite lookup_insert_ne.
Qed.

Lemma import_loop_keeps view rows session session' key obj :
  import_loop view rows session = Ok session' ->
  loaded session !! key = Some obj ->
  exists obj',
    loaded session' !! key = Some obj'
    /\ forall field, Forall (fun row => field ∉ map fst row) rows ->
                     obj' !! field = obj !! field.
Proof.
  revert session obj. induction rows as [|row rest IH]; intros session obj; cbn [import_loop].
  - intros [= <-] Hkey. by exists obj.
  - intros Hloop Hkey.
    destruct (import_row view session row) as [session1|e] eqn:Hrow; cbn [bind] in Hloop;
      [|done].
    destruct (import_row_keeps _ _ _ _ _ _ Hrow Hkey) as (obj1 & Hkey1 & Hsame1).
    destruct (IH _ _ Hloop Hkey1) as (obj' & Hkey' & Hsame').
    exists obj'. split; [done|]. intros field Hall.
    apply Forall_cons in Hall as [Hrow' Hrest].
    rewrite Hsame' by done. by apply Hsame1.
Qed.

Lemma foldr_max_ge (l : list Z) (x : Z) : x ∈ l -> x <= foldr Z.max 0 l.
Proof.
  induction l as [|y l IH]; intros Hin; [by apply elem_of_nil in Hin|].
  cbn [foldr]. apply elem_of_cons in Hin as [->|Hin]; [lia|].
  specialize (IH Hin). lia.
Qed.

Lemma next_key_fresh (t : table) : t !! next_key t = None.
Proof.
  unfold table in *.
  destruct (t !! next_key t) as [obj|] eqn:E; [|done]. exfalso.
  apply elem_of_map_to_list in E.
  assert (next_key t ∈ map fst (map_to_list t)) as Hin.
  { change (next_key t ∈ fst <$> map_to_list t).
    apply list_elem_of_fmap. by exists (next_key t, obj). }
  apply foldr_max_ge in Hin. unfold next_key, table in *. lia.
Qed.

Lemma flush_keeps view session written key obj :
  flush view session = Ok written ->
  loaded session !! key = Some obj ->
  written !! key = Some obj.
Proof.
  unfold flush. destruct (constraints view _); [|done]. intros [= <-].
  generalize (loaded session). induction (pending session) as [|new rest IH];
    intros t Hkey; [done|].
  cbn [foldl]. apply IH. unfold table in *. rewrite lookup_insert_ne; [done|].
  intros Heq. pose proof (next_key_fresh t) as Hfresh. rewrite Heq in Hfresh.
  unfold table in *. congruence.
Qed.

(** X15. A successful import deletes no row, and on the rows that were stored
    it leaves every attribute that no row of the sheet names and that
    has no [onupdate] default (the database sets those itself when it
    updates a row). *)
Theorem import_keeps_unlisted_fields view rows stored written key obj :
  _import_rows view rows stored = (Ok tt, written) ->
  stored !! key = Some obj ->
  exists obj',
    written !! key = Some obj'
    /\ forall field, field ∉ onupdate_columns view ->
                     Forall (fun row => field ∉ map fst row) rows ->
                     obj' !! field = obj !! field.
Proof.
  unfold _import_rows. intros Himport Hkey.
  destruct (import_loop view rows _) as [session|e] eqn:Hloop; [|done].
  destruct (flush view session) as [t|e] eqn:Hflush; [|done].
  injection Himport as <-.
  destruct (import_loop_keeps _ _ _ _ _ _ Hloop Hkey) as (obj' & Hkey' & Hsame).
  exists obj'. split; [by eapply flush_keeps|]. intros field _. apply Hsame.
Qed.

Lemma clean_key_none view items cleaned result (key : string) :
  (forall value, (key, value) ∈ items -> value = PyNone) ->
  (forall value, dict_get key cleaned = Some value -> value = PyNone) ->
  clean view items cleaned = Ok result ->
  forall value, dict_get key result = Some value -> value = PyNone.
Proof.
  revert cleaned. induction items as [|[k v] rest IH]; intros cleaned Hitems Hcleaned;
    cbn [clean].
  - by intros [= <-].
  - assert (forall value, (key, value) ∈ rest -> value = PyNone) as Hrest.
    { intros value Hin. apply Hitems, elem_of_cons. by right. }
    destruct (table_columns view !! k) as [col|]; [|by apply IH].
    destruct (_convert_value col v) as [converted|e] eqn:Hconv; cbn [bind]; [|done].
    apply IH; [done|]. intros value.
    destruct (decide (key = k)) as [<-|Hne].
    + rewrite dict_get_set_eq. intros [= <-].
      rewrite (Hitems v) in Hconv by (apply elem_of_cons; by left).
      by injection Hconv as <-.
    + rewrite dict_get_set_ne by done. apply Hcleaned.
Qed.

Lemma import_row_adds view session row session' :
  (forall value, (pk_name view, value) ∈ row -> value = PyNone) ->
  import_row view session row = Ok session' ->
  loaded session' = loaded session.
Proof.
  unfold import_row. intros Hnone Hrow.
  destruct (clean view row []) as [cleaned|e] eqn:Hclean; cbn [bind] in Hrow; [|done].
  assert (default PyNone (dict_get (pk_name view) cleaned) = PyNone) as Hpk.
  { destruct (dict_get (pk_name view) cleaned) as [value|] eqn:Hget; [|done].
    cbn. eapply clean_key_none; [exact Hnone| |exact Hclean|exact Hget]. done. }
  destruct cleaned as [|item cleaned'] eqn:Hc; [by injection Hrow as <-|].
  rewrite <- Hc in *. clear Hc item cleaned'.
  rewrite Hpk in Hrow. cbn [not_blank] in Hrow. by injection Hrow as <-.
Qed.

Lemma import_loop_adds view rows session session' :
  Forall (fun row => forall value, (pk_name view, value) ∈ row -> value = PyNone) rows ->
  import_loop view rows session = Ok session' ->
  loaded session' = loaded session.
Proof.
  intros Hall. revert session.
  induction Hall as [|row rest Hrow _ IH]; intros session; cbn [import_loop].
  - by intros [= <-].
  - destruct (import_row view session row) as [session1|e] eqn:E; cbn [bind]; [|done].
    intros Hloop. rewrite (IH _ Hloop). by eapply import_row_adds.
Qed.

(** X16. A sheet in which no row gives a primary key (the key column is
    missing, or its cells are empty) only adds rows: every stored row is
    after a successful import what it was before. *)
Theorem import_without_keys_only_adds view rows stored written :
  Forall (fun row => forall value, (pk_name view, value) ∈ row -> value = PyNone) rows ->
  _import_rows view rows stored = (Ok tt, written) ->
  forall key obj, stored !! key = Some obj -> written !! key = Some obj.
Proof.
  unfold _import_rows. intros Hall Himport key obj Hkey.
  destruct (import_loop view rows _) as [session|e] eqn:Hloop; [|done].
  destruct (flush view session) as [t|e] eqn:Hflush; [|done].
  injection Himport as <-.
  eapply flush_keeps; [exact Hflush|].
  by rewrite (import_loop_adds _ _ _ _ Hall Hloop).
Qed.

End CodecImport.

Section CodecImportExamples.
Import Py Codec.

(** The text 90 in an int column becomes the int 90. *)
Lemma convert_value_typed_witness :
  (@PyInt (@float reference_runtime) (@object reference_runtime) 90 = PyNone
   /\ (@PyStr (@float reference_runtime) (@object reference_runtime) "90" = PyNone
       \/ (TInt = TInt
           /\ exists s, @PyStr (@float reference_runtime) (@object reference_runtime) "90"
                        = PyStr s /\ Str.strip s = "")))
  \/ (@PyStr (@float reference_runtime) (@object reference_runtime) "90" <> PyNone
      /\ @instance_of reference_runtime TInt (PyInt 90) = true).
Proof.
  apply (@convert_value_typed reference_runtime TInt (PyStr "90") (PyInt 90)).
  - apply elem_of_cons. right. apply elem_of_cons. by left.
  - vm_compute. reflexivity.
Defined.

Lemma example_imports_accepted :
  raises (@_import_rows reference_runtime bundle_view bundle_rename_rows
            bundle_table).1 = false
  /\ raises (@_import_rows reference_runtime machine_view machine_new_rows
               machine_table).1 = false.
Proof. vm_compute. by split. Qed.

(** The sheet renames bundle 7 and does not name its price, which has
    no [onupdate] default: the price stays 99000. *)
Lemma import_keeps_unlisted_fields_witness :
  exists written obj',
    @_import_rows reference_runtime bundle_view bundle_rename_rows bundle_table
    = (Ok tt, written)
    /\ written !! 7 = Some obj'
    /\ obj' !! "custom_price" = Some (PyInt 99000).
Proof.
  pose proof (proj1 example_imports_accepted) as Hok.
  destruct (@_import_rows reference_runtime bundle_view bundle_rename_rows
              bundle_table) as [[[]|e] written] eqn:E; [|discriminate Hok].
  assert (bundle_table !! 7 = Some (bundle_record Matcher.example_bundle))
    as Hrow by (vm_compute; reflexivity).
  destruct (@import_keeps_unlisted_fields reference_runtime bundle_view
              bundle_rename_rows bundle_table written 7 _ E Hrow)
    as (obj' & Hobj' & Hsame).
  exists written, obj'. split; [reflexivity|]. split; [exact Hobj'|].
  refine (eq_trans (Hsame "custom_price" _ _) _).
  - intros Hin. apply elem_of_cons in Hin as [Hin|Hin]; [discriminate Hin|].
    by apply elem_of_nil in Hin.
  - repeat constructor. intros Hin.
    repeat (apply elem_of_cons in Hin as [Hin|Hin]; [discriminate Hin|]).
    by apply elem_of_nil in Hin.
  - vm_compute. reflexivity.
Defined.

(** A sheet with one new machine and an empty id cell leaves machine 1
    as it is. *)
Lemma import_without_keys_only_adds_witness :
  exists written,
    @_import_rows reference_runtime machine_view machine_new_rows machine_table
    = (Ok tt, written)
    /\ written !! 1
       = Some {[ "id" := PyInt 1; "name" := PyStr "Espresso"; "price" := PyInt 100 ]}.
Proof.
  pose proof (proj2 example_imports_accepted) as Hok.
  destruct (@_import_rows reference_runtime machine_view machine_new_rows
              machine_table) as [[[]|e] written] eqn:E; [|discriminate Hok].
  exists written. split; [reflexivity|].
  apply (@import_without_keys_only_adds reference_runtime machine_view
           machine_new_rows machine_table written).
  - repeat constructor. intros value Hin.
    change (@pk_name reference_runtime machine_view) with "id" in Hin.
    repeat (apply elem_of_cons in Hin as [Hin|Hin]; [by simplify_eq|]).
    by apply elem_of_nil in Hin.
  - exact E.
  - vm_compute. reflexivity.
Defined.

End CodecImportExamples.

(** ** Sheets: the rows [parse_xlsx] returns *)

Section ExcelRows.
Import Py Excel Codec.
Context `{RT : Runtime}.

Lemma dict_set_values {V} (key : string) (v x : V) (d : dict V) :
  x ∈ map snd (dict_set key v d) -> x = v \/ x ∈ map snd d.
Proof.
  induction d as [|[k y] rest IH]; cbn [dict_set map snd].
  - intros Hin. apply elem_of_cons in Hin as [->|Hin]; [by left|by right].
  - destruct (String.eqb k key); cbn [map snd]; intros Hin.
    + apply elem_of_cons in Hin as [->|Hin]; [by left|].
      right. apply elem_of_cons. by right.
    + apply elem_of_cons in Hin as [->|Hin].
      * right. apply elem_of_cons. by left.
      * destruct (IH Hin) as [->|Hrest]; [by left|].
        right. apply elem_of_cons. by right.
Qed.

Lemma assign_all_keys {V} (pairs : list (string * V)) (d : dict V) (key : string) :
  key ∈ map fst (foldl assign d pairs) -> key ∈ map fst d \/ key ∈ map fst pairs.
Proof.
  revert d. induction pairs as [|[k x] rest IH]; intros d Hin; [by left|].
  cbn [foldl] in Hin. cbn [map fst].
  destruct (IH _ Hin) as [Hset|Hrest].
  - unfold assign in Hset. cbn [fst snd] in Hset.
    destruct (dict_set_keys _ _ _ _ Hset) as [->|Hold]; [|by left].
    right. apply elem_of_cons. by left.
  - right. apply elem_of_cons. by right.
Qed.

Lemma assign_all_values {V} (pairs : list (string * V)) (d : dict V) (x : V) :
  x ∈ map snd (foldl assign d pairs) -> x ∈ map snd d \/ x ∈ map snd pairs.
Proof.
  revert d. induction pairs as [|[k y] rest IH]; intros d Hin; [by left|].
  cbn [foldl] in Hin. cbn [map snd].
  destruct (IH _ Hin) as [Hset|Hrest].
  - unfold assign in Hset. cbn [fst snd] in Hset.
    destruct (dict_set_values _ _ _ _ Hset) as [->|Hold]; [|by left].
    right. apply elem_of_cons. by left.
  - right. apply elem_of_cons. by right.
Qed.

Lemma zip_values_subset (headers : list string) (values : list val) (v : val) :
  v ∈ map snd (zip headers values) -> v ∈ values.
Proof.
  revert values. induction headers as [|h hs IH]; intros [|x xs]; cbn; intros Hin;
    try (by apply elem_of_nil in Hin).
  apply elem_of_cons in Hin as [->|Hin]; apply elem_of_cons; eauto.
Qed.

Lemma parse_xlsx_row (first : list val) (rest : list (list val)) (data : dict val) :
  data ∈ parse_xlsx (first :: rest) ->
  exists values,
    values ∈ rest
    /\ data = row_data (header_row first) values
    /\ has_content data = true.
Proof.
  cbn [parse_xlsx]. intros Hin.
  assert (data ∈ List.filter has_content (map (row_data (header_row first)) rest))
    as Hdata.
  { destruct (header_row first); [by apply elem_of_nil in Hin|done]. }
  apply list_elem_of_In, filter_In in Hdata as [Hmap Hcontent].
  apply in_map_iff in Hmap as (values & <- & Hvalues).
  exists values. by rewrite list_elem_of_In.
Qed.

(** X17. Every key of a row [parse_xlsx] returns is a header: the trimmed
    text of a cell of the first row, and never the empty text. *)
Theorem parse_xlsx_keys (first : list val) (rest : list (list val))
    (data : dict val) (key : string) :
  data ∈ parse_xlsx (first :: rest) ->
  key ∈ map fst data ->
  key <> "" /\ exists cell, cell ∈ first /\ key = _safe_header cell.
Proof.
  intros Hdata Hkey.
  destruct (parse_xlsx_row _ _ _ Hdata) as (values & _ & -> & _).
  apply header_row_spec. unfold row_data in Hkey.
  destruct (assign_all_keys _ _ _ Hkey) as [Hnil|Hzip].
  - by apply elem_of_nil in Hnil.
  - by eapply zip_keys_subset.
Qed.

Lemma header_row_all (first : list val) :
  Forall (fun cell => _safe_header cell <> "") first ->
  header_row first = map _safe_header first.
Proof.
  unfold header_row. induction 1 as [|cell cells Hcell _ IH]; [done|].
  cbn [map List.filter]. apply String.eqb_neq in Hcell. rewrite Hcell. cbn [negb].
  by rewrite IH.
Qed.

(** X18. When no cell of the first row is empty after trimming and no two
    give the same header, every returned row pairs each header with the
    cell of its own column. *)
Theorem parse_xlsx_aligned (first : list val) (rest : list (list val))
    (data : dict val) :
  Forall (fun cell => _safe_header cell <> "") first ->
  NoDup (map _safe_header first) ->
  data ∈ parse_xlsx (first :: rest) ->
  exists values,
    values ∈ rest
    /\ forall (k : nat) (head cell : val),
         first !! k = Some head -> values !! k = Some cell ->
         dict_get (_safe_header head) data = Some cell.
Proof.
  intros Hall Hnd Hdata.
  destruct (parse_xlsx_row _ _ _ Hdata) as (values & Hvalues & -> & _).
  exists values. split; [done|]. intros k head cell Hhead Hcell.
  rewrite header_row_all by done.
  apply (row_data_by_position _ _ k); [done| |done].
  change (map _safe_header first) with (_safe_header <$> first).
  by rewrite list_lookup_fmap, Hhead.
Qed.

Lemma has_content_blank (headers : list string) (values : list val) :
  Forall (fun cell => not_blank cell = false) values ->
  has_content (row_data headers values) = false.
Proof.
  intros Hall. unfold has_content.
  destruct (existsb not_blank _) eqn:E; [|done].
  apply existsb_exists in E as (cell & Hin & Hcell).
  apply list_elem_of_In in Hin. unfold row_data in Hin.
  destruct (assign_all_values _ _ _ Hin) as [Hnil|Hzip].
  - by apply elem_of_nil in Hnil.
  - apply zip_values_subset in Hzip. rewrite Forall_forall in Hall.
    rewrite (Hall _ Hzip) in Hcell. done.
Qed.

(** X19. A sheet whose first row gives no header, or whose other rows hold
    only empty cells, is imported as nothing: no error, and the table is
    left as it is. *)
Theorem import_of_blank_sheet (view : ModelView)
    (first : list val) (rest : list (list val)) (stored : table) :
  Forall (fun cell => _safe_header cell = "") first
  \/ Forall (Forall (fun cell => not_blank cell = false)) rest ->
  handle_import_bytes view (first :: rest) stored = (Ok tt, stored).
Proof.
  intros Hblank. unfold handle_import_bytes.
  assert (parse_xlsx (first :: rest) = []) as ->; [|done].
  cbn [parse_xlsx]. destruct Hblank as [Hfirst|Hrest].
  - assert (header_row first = []) as ->; [|done].
    unfold header_row. induction Hfirst as [|cell cells Hcell _ IH]; [done|].
    cbn [map List.filter]. by rewrite Hcell.
  - destruct (header_row first) as [|h hs]; [done|].
    induction Hrest as [|values others Hvalues _ IH]; [done|].
    cbn [map List.filter]. by rewrite has_content_blank.
Qed.

End ExcelRows.

Section ExcelRowsExamples.
Import Py Excel Codec.

(** A sheet with an empty second header cell. *)
Lemma parse_xlsx_keys_witness :
  "price" <> ""
  /\ exists cell : @val reference_runtime,
       cell ∈ [PyStr "code"; PyNone; PyStr " price "] /\ "price" = _safe_header cell.
Proof.
  apply (@parse_xlsx_keys reference_runtime
           [PyStr "code"; PyNone; PyStr " price "]
           [ [PyStr "m1"; PyStr "note"; PyInt 100] ]
           [("code", PyStr "m1"); ("price", PyStr "note")] "price").
  - vm_compute. apply elem_of_cons. by left.
  - apply elem_of_cons. right. apply elem_of_cons. by left.
Defined.

(** A sheet with two headers: the price of the row is the cell under
    the price header. *)
Lemma parse_xlsx_aligned_witness :
  exists values : list (@val reference_runtime),
    values ∈ [ [PyStr "m1"; PyInt 100] ]
    /\ forall (k : nat) (head cell : @val reference_runtime),
         [PyStr "code"; PyStr "price"] !! k = Some head -> values !! k = Some cell ->
         dict_get (@_safe_header reference_runtime head)
                  [("code", PyStr "m1"); ("price", PyInt 100)]
         = Some cell.
Proof.
  apply (@parse_xlsx_aligned reference_runtime
           [PyStr "code"; PyStr "price"] [ [PyStr "m1"; PyInt 100] ]
           [("code", PyStr "m1"); ("price", PyInt 100)]).
  - repeat constructor; by vm_compute.
  - vm_compute. repeat constructor; intros Hin;
      repeat (apply elem_of_cons in Hin as [Hin|Hin]; [discriminate Hin|]);
      by apply elem_of_nil in Hin.
  - vm_compute. apply elem_of_cons. by left.
Defined.

(** A sheet with headers and one row of empty cells. *)
Lemma import_of_blank_sheet_witness :
  @handle_import_bytes reference_runtime machine_view
    [ [PyStr "id"; PyStr "name"]; [PyNone; PyStr ""] ] machine_table
  = (Ok tt, machine_table).
Proof.
  apply (@import_of_blank_sheet reference_runtime machine_view).
  right. repeat constructor.
Defined.

End ExcelRowsExamples.

(** ** Media references: uploads and galleries *)

Section ProjectorUploads.
Import Str Projector Storage.

Lemma startswith_app (s t prefix : string) :
  startswith s prefix = true -> startswith (s +:+ t) prefix = true.
Proof.
  revert s. induction prefix as [|a prefix IH]; intros s;
    [intros _; apply startswith_nil|].
  destruct s as [|b s]; [done|]. rewrite append_cons. cbn [startswith].
  intros H. apply andb_true_iff in H as [-> H]. cbn [andb]. by apply IH.
Qed.

Lemma is_http_app (s t : string) : is_http s = true -> is_http (s +:+ t) = true.
Proof.
  unfold is_http. intros H. apply orb_true_iff in H as [H|H];
    apply (startswith_app _ t) in H; rewrite H; [done|apply orb_true_r].
Qed.

Lemma absolute_http (base_url value : string) :
  is_http (rstrip_char slash base_url) = true ->
  value <> "" ->
  is_http (absolute base_url value) = true.
Proof.
  intros Hbase Hvalue. unfold absolute. apply String.eqb_neq in Hvalue. rewrite Hvalue.
  fold (is_http value). destruct (is_http value) eqn:E; [done|]. by apply is_http_app.
Qed.

Lemma absolute_of_http (base_url value : string) :
  is_http value = true -> absolute base_url value = value.
Proof.
  intros H. unfold absolute. fold (is_http value). rewrite H.
  by destruct (String.eqb value "").
Qed.

(** X20. With an http or https base, resolving a reference a second time
    changes nothing. *)
Theorem absolute_idempotent (base_url value : string) :
  is_http (rstrip_char slash base_url) = true ->
  absolute base_url (absolute base_url value) = absolute base_url value.
Proof.
  intros Hbase. destruct (String.eqb value "") eqn:E.
  - apply String.eqb_eq in E. by subst value.
  - apply String.eqb_neq in E. by apply absolute_of_http, absolute_http.
Qed.

(** X21. With an http or https base, every entry of a resolved gallery is an
    http or https URL, and the gallery has one entry for each stored
    entry that is not empty. *)
Theorem absolute_gallery_http (urls : list string) (base_url : string) :
  is_http (rstrip_char slash base_url) = true ->
  Forall (fun url => is_http url = true) (_absolute_gallery urls base_url)
  /\ length (_absolute_gallery urls base_url)
     = length (List.filter (fun url => negb (String.eqb url "")) urls).
Proof.
  intros Hbase. unfold _absolute_gallery. split; [|apply length_map].
  apply Forall_forall. intros url Hin.
  apply list_elem_of_In, in_map_iff in Hin as (stored & <- & Hstored).
  apply filter_In in Hstored as [_ Hne].
  apply absolute_http; [done|]. by apply negb_true_iff, String.eqb_neq in Hne.
Qed.

Lemma rstrip_char_head (c x : ascii) (rest : string) :
  rstrip_char c (String x rest) = EmptyString
  \/ exists kept, rstrip_char c (String x rest) = String x kept.
Proof.
  cbn [rstrip_char]. destruct (rstrip_char c rest) as [|y kept].
  - destruct (Ascii.eqb x c); [by left|right; by eexists].
  - right. by eexists.
Qed.

Lemma uploads_url_prefix_clean_rooted (uploads_url_prefix : string) :
  exists rest,
    uploads_url_prefix_clean uploads_url_prefix = String "/" rest
    /\ last_char (String "/" rest) <> Some slash.
Proof.
  unfold uploads_url_prefix_clean.
  set (prefix := if String.eqb (strip _) "" then "/uploads" else strip _).
  set (rooted := if startswith prefix "/" then prefix else "/" +:+ prefix).
  assert (exists rest, rooted = String "/" rest) as [rest Hrooted].
  { unfold rooted. destruct (startswith prefix "/") eqn:E.
    - destruct prefix as [|x rest]; [done|]. cbn [startswith] in E.
      apply andb_true_iff in E as [E _]. apply Ascii.eqb_eq in E. subst x.
      by exists rest.
    - exists prefix. by rewrite append_cons, append_nil. }
  destruct (String.eqb (rstrip_char slash rooted) "") eqn:E.
  - exists "uploads". split; [done|]. by cbv.
  - apply String.eqb_neq in E. pose proof (rstrip_char_last slash rooted) as Hlast.
    rewrite Hrooted in *.
    destruct (rstrip_char_head slash "/" rest) as [Hnil|[kept Hkept]]; [done|].
    exists kept. by rewrite <- Hkept.
Qed.

(** X22. The upload prefix starts with a separator and never ends with one,
    whatever is configured. *)
Theorem uploads_url_prefix_clean_shape (uploads_url_prefix : string) :
  startswith (uploads_url_prefix_clean uploads_url_prefix) "/" = true
  /\ last_char (uploads_url_prefix_clean uploads_url_prefix) <> Some slash.
Proof.
  destruct (uploads_url_prefix_clean_rooted uploads_url_prefix) as (rest & -> & Hlast).
  split; [|done]. cbn [startswith]. by rewrite startswith_nil.
Qed.


(** With the prefix //cdn two separators stand between base and path. *)
Example public_url_double_separator :
  uploads_url_prefix_clean "//cdn" = "//cdn"
  /\ absolute "http://shop.example/" (public_url "//cdn" "a.jpg")
     = "http://shop.example//cdn/a.jpg".
Proof. by vm_compute. Qed.

End ProjectorUploads.

Section ProjectorUploadsExamples.
Import Str Projector.

Lemma absolute_idempotent_witness :
  absolute "http://shop.example/" (absolute "http://shop.example/" "uploads/a.jpg")
  = absolute "http://shop.example/" "uploads/a.jpg".
Proof. apply absolute_idempotent. reflexivity. Defined.

Lemma absolute_gallery_http_witness :
  Forall (fun url => is_http url = true)
         (_absolute_gallery ["uploads/a.jpg"; EmptyString; "https://cdn.example/b.jpg"]
                            "http://shop.example/")
  /\ length (_absolute_gallery ["uploads/a.jpg"; EmptyString; "https://cdn.example/b.jpg"]
                               "http://shop.example/")
     = length (List.filter (fun url => negb (String.eqb url ""))
                           ["uploads/a.jpg"; EmptyString; "https://cdn.example/b.jpg"]).
Proof. apply absolute_gallery_http. reflexivity. Defined.

End ProjectorUploadsExamples.

(** ** Gallery entries *)

Section GalleryEntries.
Import Py Gallery Projector.
Context `{RT : Runtime}.

Lemma string_items_nonempty (items : list (json float)) :
  Forall (fun url => url <> "") (string_items items).
Proof.
  unfold string_items. induction items as [|item items IH]; [constructor|].
  cbn [omap list_omap]. destruct item as [| | | |s| |]; try exact IH.
  destruct (String.eqb s "") eqn:E; [exact IH|].
  constructor; [by apply String.eqb_neq|exact IH].
Qed.

Lemma parse_gallery_nonempty (value : gallery_value) (urls : list string) :
  parse_gallery value = Ok urls -> Forall (fun url => url <> "") urls.
Proof.
  unfold parse_gallery. destruct value as [|text|items].
  - intros [= <-]. constructor.
  - destruct (String.eqb (Str.strip text) ""); [intros [= <-]; constructor|].
    destruct (json_loads (Str.strip text)) as [data|]; [|intros [= <-]; constructor].
    destruct (iterate data) as [items|e]; cbn [bind]; [|done].
    intros [= <-]. apply string_items_nonempty.
  - intros [= <-]. apply string_items_nonempty.
Qed.

(** X24. No entry of a decoded gallery is empty, so the projector resolves
    every one of them, in order: it leaves none out. *)
Theorem parsed_gallery_is_resolved_whole
    (value : gallery_value) (urls : list string) (base_url : string) :
  parse_gallery value = Ok urls ->
  Forall (fun url => url <> "") urls
  /\ _absolute_gallery urls base_url = map (absolute base_url) urls.
Proof.
  intros Hparse. pose proof (parse_gallery_nonempty _ _ Hparse) as Hall.
  split; [done|]. unfold _absolute_gallery. f_equal.
  clear Hparse. induction Hall as [|url rest Hurl _ IH]; [done|].
  cbn [List.filter]. apply String.eqb_neq in Hurl. rewrite Hurl. cbn [negb].
  by rewrite IH.
Qed.

End GalleryEntries.

(** A sequence with a name, an empty text and a number. *)
Lemma parsed_gallery_is_resolved_whole_witness :
  Forall (fun url => url <> "") ["a.jpg"]
  /\ Projector._absolute_gallery ["a.jpg"] "http://shop.example/"
     = map (Projector.absolute "http://shop.example/") ["a.jpg"].
Proof.
  apply (@parsed_gallery_is_resolved_whole Py.reference_runtime
           (Gallery.GallerySequence [Py.JStr "a.jpg"; Py.JStr EmptyString; Py.JInt 3])).
  reflexivity.
Defined.
